(** * smoothbrain-test: the assertion helpers of [Test.go]

    A shallow embedding of the Go package [smoothbraintest] (file
    [Test.go]) together with the parts of the Go runtime and standard
    library its functions call ([testing.T.Fatal], [runtime.Caller],
    [recover], [reflect], [errors.Is], interface comparison), followed by
    the properties of the assertion helpers.

    Layout: Part I holds every definition (the Go value universe, the
    formatting terms, the goroutine monad, the functions of [Test.go] in
    source order); Part II holds the lemmas and theorems. *)

From Stdlib Require Import ZArith String Ascii List Bool Lia.
From Stdlib Require Import Floats.SpecFloat.
From stdpp Require Import base option list gmap strings.

Set Warnings "-register-all".

Local Open Scope string_scope.
Local Open Scope Z_scope.
Local Open Scope list_scope.
Local Open Scope stdpp_scope.

(* ================================================================== *)
(** * Part I. Definitions *)
(* ================================================================== *)

(** ** Go values

    The dynamic values the assertion helpers receive through their [any]
    parameters.  A [value] is a value of a concrete or interface type; the
    element types that Go needs to tell a nil [[]int] from a nil
    [[]string] are carried by the constructors. *)
Module Go.

Inductive type : Type :=
  | TBool
  | TInt
  | TFloat64
  | TString
  | TPtr (elem : type)
  | TSlice (elem : type)
  | TMap (key elem : type)
  | TFunc
  | TChan (elem : type)
  | TArray (len : nat) (elem : type)
  | TStruct (fields : list type)
  | TInterface.

(** Identity of types. *)
Fixpoint type_eqb (a b : type) {struct a} : bool :=
  match a, b with
  | TBool, TBool | TInt, TInt | TFloat64, TFloat64 | TString, TString
  | TFunc, TFunc | TInterface, TInterface => true
  | TPtr x, TPtr y | TSlice x, TSlice y | TChan x, TChan y => type_eqb x y
  | TMap k x, TMap l y => type_eqb k l && type_eqb x y
  | TArray n x, TArray m y => Nat.eqb n m && type_eqb x y
  | TStruct xs, TStruct ys =>
      (fix all (xs ys : list type) {struct xs} : bool :=
         match xs, ys with
         | [], [] => true
         | x :: xs', y :: ys' => type_eqb x y && all xs' ys'
         | _, _ => false
         end) xs ys
  | _, _ => false
  end.

(** The language's notion of a comparable type: slices, maps and
    functions are not, arrays and structs are when their parts are,
    interfaces are (the comparison may still panic at run time). *)
Fixpoint comparable (t : type) : bool :=
  match t with
  | TSlice _ | TMap _ _ | TFunc => false
  | TArray _ e => comparable e
  | TStruct fs => forallb comparable fs
  | _ => true
  end.

(** 64-bit IEEE 754 floats, as the specification floats of the standard
    library at precision 53 and maximal exponent 1024. *)
Definition float64 : Type := spec_float.

Inductive value : Type :=
  | VBool (b : bool)
  | VInt (z : Z)
  | VFloat64 (f : float64)
  | VString (s : string)
  | VPtr (elem : type) (addr : option N)
  | VSlice (elem : type) (data : option (list value))
  | VMap (key elem : type) (data : option (list (value * value)))
  | VFunc (code : option N)
  | VChan (elem : type) (ch : option N)
  | VArray (elem : type) (items : list value)
  | VStruct (fields : list value)
  | VIface (held : option value).

(** A value of type [any]: the nil interface, or a dynamic value. *)
Definition any : Type := option value.

Fixpoint type_of (v : value) : type :=
  match v with
  | VBool _ => TBool
  | VInt _ => TInt
  | VFloat64 _ => TFloat64
  | VString _ => TString
  | VPtr e _ => TPtr e
  | VSlice e _ => TSlice e
  | VMap k e _ => TMap k e
  | VFunc _ => TFunc
  | VChan e _ => TChan e
  | VArray e items => TArray (length items) e
  | VStruct fields => TStruct (map type_of fields)
  | VIface _ => TInterface
  end.

(** Conversion of a value to [any]: a value of interface type hands over
    what it holds, so the dynamic type of an [any] is never an interface
    type. *)
Fixpoint to_any (v : value) : any :=
  match v with
  | VIface None => None
  | VIface (Some x) => to_any x
  | _ => Some v
  end.

(** The language's [==] on two operands of one comparable type; [None]
    is the run-time panic of comparing interface values whose common
    dynamic type is not comparable.  Arrays and structs are compared part
    by part in order, stopping at the first difference.  Operands that
    could not be written with [==] in a well-typed program (slices, maps,
    functions, operands of two types) also give [None]. *)
Fixpoint go_eq (x y : value) {struct x} : option bool :=
  match x, y with
  | VBool a, VBool b => Some (Bool.eqb a b)
  | VInt a, VInt b => Some (Z.eqb a b)
  | VFloat64 a, VFloat64 b => Some (SFeqb a b)
  | VString a, VString b => Some (String.eqb a b)
  | VPtr _ a, VPtr _ b => Some (bool_decide (a = b))
  | VChan _ a, VChan _ b => Some (bool_decide (a = b))
  | VArray _ xs, VArray _ ys | VStruct xs, VStruct ys =>
      (fix parts (xs ys : list value) {struct xs} : option bool :=
         match xs, ys with
         | [], [] => Some true
         | a :: xs', b :: ys' =>
             match go_eq a b with
             | Some true => parts xs' ys'
             | r => r
             end
         | _, _ => Some false
         end) xs ys
  | VIface hx, VIface hy =>
      match hx, hy with
      | None, None => Some true
      | Some a, Some b =>
          if type_eqb (type_of a) (type_of b)
          then if comparable (type_of a) then go_eq a b else None
          else Some false
      | _, _ => Some false
      end
  | _, _ => None
  end.

(** [a == b] on two interface values. *)
Definition iface_eq (a b : any) : option bool := go_eq (VIface a) (VIface b).

(** Generic code: a type parameter [T] comes with its Go type and the
    injection of its values into the value universe. *)
Class GoType (T : Type) : Type := {
  go_type : type;
  to_value : T -> value;
  zero : T
}.

(** [any(x)]. *)
Definition box {T : Type} `{GoType T} (x : T) : any := to_any (to_value x).

(** The constraint [comparable], for the strictly comparable types: [==]
    is total on them (it never panics).  The interface types, which the
    constraint also admits and on which [==] can panic at run time, are
    no instances: a statement over [Comparable T] says nothing of a call
    at [T = any] or [T = error]. *)
Class Comparable (T : Type) `{GoType T} : Type := {
  go_eqb : T -> T -> bool
}.

(** What [==] satisfies on every strictly comparable type: it is
    symmetric and transitive (and reflexive except on NaN). *)
Class ComparableLaws (T : Type) `{Comparable T} : Prop := {
  go_eqb_sym : forall x y : T, go_eqb x y = true -> go_eqb y x = true;
  go_eqb_trans : forall x y z : T,
    go_eqb x y = true -> go_eqb y z = true -> go_eqb x z = true
}.

#[global] Instance bool_GoType : GoType bool :=
  {| go_type := TBool; to_value := VBool; zero := false |}.
#[global] Instance int_GoType : GoType Z :=
  {| go_type := TInt; to_value := VInt; zero := 0 |}.
#[global] Instance float64_GoType : GoType float64 :=
  {| go_type := TFloat64; to_value := VFloat64; zero := S754_zero false |}.
#[global] Instance string_GoType : GoType string :=
  {| go_type := TString; to_value := VString; zero := "" |}.
(** The interface type [any] as a type argument. *)
#[global] Instance any_GoType : GoType any :=
  {| go_type := TInterface; to_value := VIface; zero := None |}.
(** A slice [[]T]; a nil and an empty slice are both the empty list. *)
#[global] Instance slice_GoType {T : Type} `{GoType T} : GoType (list T) :=
  {| go_type := TSlice (go_type (T := T));
     to_value := fun l => VSlice (go_type (T := T)) (Some (map to_value l));
     zero := [] |}.

#[global] Instance bool_Comparable : Comparable bool :=
  {| go_eqb := Bool.eqb |}.
#[global] Instance int_Comparable : Comparable Z :=
  {| go_eqb := Z.eqb |}.
#[global] Instance float64_Comparable : Comparable float64 :=
  {| go_eqb := SFeqb |}.
#[global] Instance string_Comparable : Comparable string :=
  {| go_eqb := String.eqb |}.

End Go.

(** ** Package [fmt]

    [fmt.Sprintf] is kept symbolic: a formatted string is the format and
    its operands.  [render] turns it into characters once the formatting
    of single operands under a verb is given. *)
Module fmt.

Inductive text : Type :=
  | Lit (s : string)
  | Sprintf (format : string) (args : list arg)
with arg : Type :=
  | Val (a : Go.any)
  | Str (t : text).

(** How the package prints one operand under one verb ([%v], [%T], [%d],
    [%e], [%s]). *)
Class Verbs : Type := { verb : ascii -> Go.any -> string }.

(** Substitution of the operands, already printable, for the verbs of a
    format, left to right. *)
Fixpoint subst_verbs (format : string) (args : list (ascii -> string)) : string :=
  match format with
  | EmptyString => EmptyString
  | String.String "%"%char (String.String c rest) =>
      match args with
      | a :: args' => a c +:+ subst_verbs rest args'
      | [] => "%!" +:+ String.String c ("(MISSING)" +:+ subst_verbs rest [])
      end
  | String.String c rest => String.String c (subst_verbs rest args)
  end.

Fixpoint render `{Verbs} (t : text) : string :=
  match t with
  | Lit s => s
  | Sprintf format args =>
      subst_verbs format
        (map (fun a c => match a with
                         | Val x => verb c x
                         | Str t' => render t'
                         end) args)
  end.

End fmt.

(** ** Package [runtime]: call stacks, panics and goroutine exit *)
Module runtime.

(** A stack frame as [runtime.Caller] reports it: file and line. *)
Definition Frame : Type := string * Z.

(** Where the build found the sources: the path of this package's
    [Test.go], and the position in the runtime's [panic.go] from which
    [gopanic] and [Goexit] run deferred calls. *)
Class Build : Type := {
  Test_go : string;
  panic_go : string;
  gopanic_line : Z;
  Goexit_line : Z
}.

(** [runtime.Caller(skip)] on the stack of the calling goroutine, whose
    head is the frame of the function that calls [runtime.Caller].  With
    too few frames the call reports an empty file and line 0. *)
Definition Caller (skip : nat) (stack : list Frame) : Frame :=
  nth skip stack ("", 0).

(** What [recover] returns while the goroutine panics: the operand of
    [panic], or a run-time error.  It is never nil ([panic(nil)] raises a
    run-time error since Go 1.21). *)
Inductive PanicValue : Type :=
  | Raised (v : Go.value)
  | Error (msg : string).

(** How a call ends: it returns, the goroutine is exiting
    ([runtime.Goexit]), or it is panicking. *)
Inductive completion (A : Type) : Type :=
  | Returned (a : A)
  | Goexit
  | Panicking (p : PanicValue).
Arguments Returned {A} a.
Arguments Goexit {A}.
Arguments Panicking {A} p.

(** A computation of the test's goroutine: the messages it hands to
    [t.Fatal], in order, and how it ends. *)
Definition M (A : Type) : Type := list fmt.text * completion A.

Definition ret {A : Type} (a : A) : M A := ([], Returned a).

Definition bind {A B : Type} (m : M A) (k : A -> M B) : M B :=
  match m with
  | (log, Returned a) => let '(log', c) := k a in (log ++ log', c)
  | (log, Goexit) => (log, Goexit)
  | (log, Panicking p) => (log, Panicking p)
  end.

Definition panic {A : Type} (p : PanicValue) : M A := ([], Panicking p).

(** Lifting of a partial operation of the language or of a library: where
    it is undefined the goroutine panics with a run-time error. *)
Definition try {A : Type} (what : string) (o : option A) : M A :=
  match o with
  | Some a => ret a
  | None => panic (Error what)
  end.

(** [defer func() { r := recover(); ... }(); body]: the deferred closure
    runs when [body] has ended, however it ended, and starts by calling
    [recover].  [handler r] is the rest of the closure given the result
    [r] of that call, [None] for nil.  A recovered panic is over: the
    function returns to its caller unless the closure ends otherwise.  An
    exit of the goroutine under way cannot be recovered and goes on. *)
Definition defer_recover (body : M unit)
    (handler : option PanicValue -> M unit) : M unit :=
  match body with
  | (log, Returned _) =>
      let '(log', c) := handler None in (log ++ log', c)
  | (log, Panicking p) =>
      let '(log', c) := handler (Some p) in (log ++ log', c)
  | (log, Goexit) =>
      let '(log', c) := handler None in
      (log ++ log', match c with Returned _ => Goexit | _ => c end)
  end.

(** The frames below a deferred closure when it runs, for a function
    whose own frame is [at_call] while its body runs and [at_exit] when it
    returns.  After a return the function itself calls the closure; during
    a panic [gopanic] does, during an exit [Goexit] does, both in the
    runtime's [panic.go] (the frames of the callee that panicked or
    exited, between the runtime's frame and [at_call], are left out: no
    skip count of [Test.go] reaches them). *)
Definition deferred_stack `{Build} {A : Type} (c : completion A)
    (at_call at_exit : Frame) (callers : list Frame) : list Frame :=
  match c with
  | Returned _ => at_exit :: callers
  | Panicking _ => (panic_go, gopanic_line) :: at_call :: callers
  | Goexit => (panic_go, Goexit_line) :: at_call :: callers
  end.

(** [for i := 0; i < n && cond; i++ { body }] over a loop state; [todo]
    is the list of the indexes still to visit, [seq 0 n] at the start. *)
Fixpoint for_ {S : Type} (todo : list nat) (cond : S -> bool)
    (body : nat -> S -> M S) (s : S) : M S :=
  match todo with
  | [] => ret s
  | i :: todo' =>
      if cond s then bind (body i s) (for_ todo' cond body) else ret s
  end.

(** [for _, x := range xs { body }]. *)
Fixpoint range {A : Type} (xs : list A) (body : A -> M unit) : M unit :=
  match xs with
  | [] => ret tt
  | x :: xs' => bind (body x) (fun _ => range xs' body)
  end.

(** Whether a computation ends panicking. *)
Definition panicked {A : Type} (m : M A) : bool :=
  match snd m with
  | Panicking _ => true
  | _ => false
  end.

(** [xs[i]]: a read out of range panics. *)
Definition index {A : Type} (xs : list A) (i : nat) : M A :=
  try "index out of range" (xs !! i).

End runtime.

Notation "'do' x <- m ; k" := (runtime.bind m (fun x => k))
  (at level 10, x name, m at level 100, k at level 200, only parsing).
Notation "'run' m ; k" := (runtime.bind m (fun _ => k))
  (at level 10, m at level 100, k at level 200, only parsing).

(** ** Package [testing] *)
Module testing.

(** [t.Fatal(msg)]: the message is recorded, the test is marked as failed
    and the goroutine of the test exits ([runtime.Goexit]); nothing after
    the call runs except deferred calls. *)
Definition Fatal {A : Type} (msg : fmt.text) : runtime.M A :=
  ([msg], runtime.Goexit).

End testing.

(** ** Package [reflect] *)
Module reflect.

(** [reflect.Kind], for the kinds of [Go.type]. *)
Inductive Kind : Type :=
  | Bool | Int | Float64 | String | Pointer | Slice | Map | Func | Chan
  | Array | Struct | Interface.

Definition Kind_eqb (a b : Kind) : bool :=
  match a, b with
  | Bool, Bool | Int, Int | Float64, Float64 | String, String
  | Pointer, Pointer | Slice, Slice | Map, Map | Func, Func | Chan, Chan
  | Array, Array | Struct, Struct | Interface, Interface => true
  | _, _ => false
  end.

(** [Type.Kind()]. *)
Definition Type_Kind (t : Go.type) : Kind :=
  match t with
  | Go.TBool => Bool
  | Go.TInt => Int
  | Go.TFloat64 => Float64
  | Go.TString => String
  | Go.TPtr _ => Pointer
  | Go.TSlice _ => Slice
  | Go.TMap _ _ => Map
  | Go.TFunc => Func
  | Go.TChan _ => Chan
  | Go.TArray _ _ => Array
  | Go.TStruct _ => Struct
  | Go.TInterface => Interface
  end.

(** A [reflect.Value]; [None] is the zero Value, which holds nothing. *)
Definition Value : Type := option Go.value.

(** [reflect.ValueOf(i)]: the value the interface holds, the zero Value
    for a nil interface. *)
Definition ValueOf (i : Go.any) : Value := i.

(** [reflect.TypeOf(i)]: the dynamic type, nil for a nil interface. *)
Definition TypeOf (i : Go.any) : option Go.type := Go.type_of <$> i.

(** [Value.IsZero] on a valid Value: whether it is the zero value of its
    type ([v.Float() == 0] for floats, as since Go 1.22). *)
Fixpoint zero_value (v : Go.value) : bool :=
  match v with
  | Go.VBool b => negb b
  | Go.VInt z => Z.eqb z 0
  | Go.VFloat64 f => SFeqb f (S754_zero false)
  | Go.VString s => Nat.eqb (String.length s) 0
  | Go.VPtr _ a => bool_decide (a = None)
  | Go.VSlice _ d => match d with None => true | Some _ => false end
  | Go.VMap _ _ d => match d with None => true | Some _ => false end
  | Go.VFunc c => bool_decide (c = None)
  | Go.VChan _ c => bool_decide (c = None)
  | Go.VArray _ items => forallb zero_value items
  | Go.VStruct fields => forallb zero_value fields
  | Go.VIface held => match held with None => true | Some _ => false end
  end.

(** [Value.IsZero]; it panics on the zero Value. *)
Definition IsZero (rv : Value) : option bool := zero_value <$> rv.

(** [Value.Elem] on a Value of kind Interface: the Value the interface
    holds, the zero Value when it is nil.  On a pointer Go returns the
    pointee, which this model does not represent, and on any other kind
    the call panics: both are [None] here.  [Test.go] calls [Elem] only
    behind a test for the kind Interface. *)
Definition Elem (rv : Value) : option Value :=
  match rv with
  | Some (Go.VIface held) => Some held
  | _ => None
  end.

End reflect.

(** ** Package [errors] *)
Module errors.

(** The error values of the standard library: [errors.New] (a leaf),
    [fmt.Errorf] with one [%w] (its [Unwrap] returns the operand, nil when
    the operand was nil), and [errors.Join] or [fmt.Errorf] with several
    [%w] (its [Unwrap] returns a slice without nil entries).  All three
    are pointers; [addr] is the address, and [==] compares addresses. *)
Inductive error : Type :=
  | errorString (addr : N) (s : string)
  | wrapError (addr : N) (msg : string) (err : option error)
  | joinError (addr : N) (errs : list error).

Definition addr (e : error) : N :=
  match e with
  | errorString a _ | wrapError a _ _ | joinError a _ => a
  end.

(** [err == target] on two non-nil errors. *)
Definition same (err target : error) : bool := N.eqb (addr err) (addr target).

(** The loop of [errors.Is] on a non-nil [err]: compare, then unwrap. *)
Fixpoint is_ (err target : error) {struct err} : bool :=
  same err target ||
  match err with
  | errorString _ _ => false
  | wrapError _ _ None => false
  | wrapError _ _ (Some inner) => is_ inner target
  | joinError _ errs => existsb (fun e => is_ e target) errs
  end.

(** [errors.Is(err, target)]. *)
Definition Is (err target : option error) : bool :=
  match err, target with
  | Some e, Some t => is_ e t
  | None, None => true
  | _, _ => false
  end.

#[global] Instance error_GoType : Go.GoType (option error) :=
  {| Go.go_type := Go.TInterface;
     Go.to_value := fun e =>
       Go.VIface ((fun x => Go.VPtr (Go.TStruct []) (Some (addr x))) <$> e);
     Go.zero := None |}.

End errors.

(** ** Package [math] *)
Module math.

(** [math.Abs]. *)
Definition Abs (x : Go.float64) : Go.float64 := SFabs x.

End math.

(** ** Package [smoothbraintest]: the functions of [Test.go]

    Every function takes, in place of [t *testing.T], the stack of its
    callers: [callers] starts with the frame of the test at the line of
    the call.  The messages given to [t.Fatal] are in the result. *)
Module smoothbraintest.
Import Go fmt runtime.

Section Functions.
Context `{B : Build}.

(** The line break of the format of [FormatError]. *)
Definition newline : string := String.String (ascii_of_nat 10) "".

Definition FormatError (expected got : any) (base : text)
    (file : string) (line : Z) : M unit :=
  testing.Fatal (Sprintf
    ("Error | File %s Line %d | %s" +:+ newline +:+
     "Expected: (%T) '%v'" +:+ newline +:+
     "Got     : (%T) '%v'")
    [Val (box file); Val (box line); Str base;
     Val expected; Val expected; Val got; Val got]).

Definition ContainsError (callers : list Frame)
    (expected got : option errors.error) : M unit :=
  if negb (errors.Is got expected) then
    let '(f, line) := Caller 1 ((Test_go, 36) :: callers) in
    FormatError (box expected) (box got)
      (Lit "The expected error was not contained in the given error.")
      f line
  else ret tt.

Definition Panics (callers : list Frame) (action : M unit) : M unit :=
  defer_recover action (fun r =>
    match r with
    | None =>
        let '(f, line) :=
          Caller 1 ((Test_go, 52) ::
                    deferred_stack (snd action) (Test_go, 61) (Test_go, 62)
                      callers) in
        FormatError (box "panic") (box "")
          (Lit "The supplied funciton did not panic when it should have.")
          f line
    | Some _ => ret tt
    end).

Definition NoPanic (callers : list Frame) (action : M unit) : M unit :=
  defer_recover action (fun r =>
    match r with
    | Some _ =>
        let '(f, line) :=
          Caller 1 ((Test_go, 69) ::
                    deferred_stack (snd action) (Test_go, 78) (Test_go, 79)
                      callers) in
        FormatError (box "") (box "panic")
          (Lit "The supplied funciton paniced when it shouldn't have.")
          f line
    | None => ret tt
    end).

Definition Eq {T : Type} `{Comparable T} (callers : list Frame)
    (expected got : T) : M unit :=
  if negb (go_eqb expected got) then
    let '(f, line) := Caller 1 ((Test_go, 85) :: callers) in
    FormatError (box expected) (box got)
      (Lit "The supplied values were not equal but were expected to be.")
      f line
  else ret tt.

Definition EqOneOf {T : Type} `{Comparable T} (callers : list Frame)
    (expected : T) (data : list T) : M unit :=
  if existsb (fun rVal => go_eqb expected rVal) data then ret tt
  else
    let '(f, line) := Caller 1 ((Test_go, 103) :: callers) in
    FormatError (box expected) (box data)
      (Lit "The supplied value is not in the supplied slice.")
      f line.

(** [T] is [float64]: the difference is rounded to the nearest float, and
    [x > y] is the IEEE comparison, false when either side is a NaN. *)
Definition EqFloat (callers : list Frame) (expected got eps : float64)
    : M unit :=
  if SFltb eps (math.Abs (SFsub 53 1024 expected got)) then
    let '(f, line) := Caller 1 ((Test_go, 114) :: callers) in
    FormatError (box expected) (box got)
      (Sprintf
         "The supplied float was not within the expected range of %e to be considered equal."
         [Val (box eps)])
      f line
  else ret tt.

Definition EqFunc {T : Type} `{GoType T} (callers : list Frame)
    (expected got : T) (cmp : T -> T -> M bool) : M unit :=
  do c <- cmp expected got;
  if negb c then
    let '(f, line) := Caller 1 ((Test_go, 130) :: callers) in
    FormatError (box expected) (box got)
      (Lit "The supplied values were not equal as defined by the supplied comparison function but were expected to be.")
      f line
  else ret tt.

Definition Neq (callers : list Frame) (expected got : any) : M unit :=
  do e <- try "comparing uncomparable type" (iface_eq expected got);
  if (e : bool) then
    let '(f, line) := Caller 1 ((Test_go, 143) :: callers) in
    FormatError expected got
      (Lit "The supplied values were equal but were expected to not be.")
      f line
  else ret tt.

Definition True (callers : list Frame) (v : bool) : M unit :=
  if negb (Bool.eqb v true) then
    let '(f, line) := Caller 1 ((Test_go, 158) :: callers) in
    FormatError (box true) (box v)
      (Lit "The supplied value was not true when it was expected to be.")
      f line
  else ret tt.

Definition False (callers : list Frame) (v : bool) : M unit :=
  if negb (Bool.eqb v false) then
    let '(f, line) := Caller 1 ((Test_go, 173) :: callers) in
    FormatError (box false) (box v)
      (Lit "The supplied value was not false when it was expected to be.")
      f line
  else ret tt.

Definition Nil (callers : list Frame) (v : any) : M unit :=
  (* The actual value is nil *)
  if bool_decide (v = None) then ret tt else
  (* The value is not nil but its underlying data is nil *)
  let rv := reflect.ValueOf v in
  do z <- try "reflect: call of reflect.Value.IsZero on zero Value"
            (reflect.IsZero rv);
  if (z : bool) then ret tt else
  (* The value is an interface that is nil *)
  let tv := reflect.TypeOf v in
  do k <- try "nil pointer dereference" (reflect.Type_Kind <$> tv);
  do c <- (if reflect.Kind_eqb k reflect.Interface then
             do e <- try "reflect: call of reflect.Value.Elem" (reflect.Elem rv);
             try "reflect: call of reflect.Value.IsZero on zero Value"
               (reflect.IsZero e)
           else ret false);
  if (c : bool) then ret tt else
  let '(f, line) := Caller 1 ((Test_go, 202) :: callers) in
  FormatError None v
    (Lit "The supplied value was not nil when it was expected to be.")
    f line.

Definition NotNil (callers : list Frame) (v : any) : M unit :=
  let fail : M unit :=
    let '(f, line) := Caller 1 ((Test_go, 236) :: callers) in
    FormatError (box "!nil") v
      (Lit "The supplied value was nil when it was not expected to be.")
      f line in
  (* The actual value is nil *)
  if bool_decide (v = None) then fail else
  (* The value is not nil but its underlying data is nil *)
  let rv := reflect.ValueOf v in
  do z <- try "reflect: call of reflect.Value.IsZero on zero Value"
            (reflect.IsZero rv);
  if (z : bool) then fail else
  (* The value is an interface that is nil *)
  let tv := reflect.TypeOf v in
  do k <- try "nil pointer dereference" (reflect.Type_Kind <$> tv);
  do c <- (if reflect.Kind_eqb k reflect.Interface then
             do e <- try "reflect: call of reflect.Value.Elem" (reflect.Elem rv);
             do ez <- try "reflect: call of reflect.Value.IsZero on zero Value"
                        (reflect.IsZero e);
             ret (negb ez)
           else ret false);
  if (c : bool) then fail else
  ret tt.

(** [len(xs)], an [int]. *)
Definition len {A : Type} (xs : list A) : Z := Z.of_nat (length xs).

Definition SlicesMatch {T : Type} `{Comparable T} (callers : list Frame)
    (expected got : list T) : M unit :=
  let '(f, line) := Caller 1 ((Test_go, 249) :: callers) in
  run (if negb (Z.eqb (len expected) (len got)) then
         FormatError (box (len expected)) (box (len got))
           (Lit "Slices do not match in length.")
           f line
       else ret tt);
  for_ (seq 0 (length expected)) (fun _ => true) (fun i _ =>
    do e <- index expected i;
    do g <- index got i;
    if negb (go_eqb e g) then
      FormatError (box e) (box g)
        (Sprintf "Values do not match | Index: %d" [Val (box (Z.of_nat i))])
        f line
    else ret tt) tt.

(** The loop over [j] of [SlicesMatchUnordered], for one [i]: its state
    is [found] and [usedIndexes]. *)
Definition find_unused {T : Type} `{Comparable T} (expected got : list T)
    (i : nat) (usedIndexes : gset nat) : M (bool * gset nat) :=
  for_ (seq 0 (length got)) (fun s => negb (fst s)) (fun j s =>
    do e <- index expected i;
    do g <- index got j;
    (* The values at indexes i and j matched *)
    if go_eqb e g then
      if bool_decide (j ∈ snd s) then ret s
      else ret (true, {[j]} ∪ snd s)
    else ret s) (false, usedIndexes).

(** The loop over [i] of [SlicesMatchUnordered]: its state is
    [usedIndexes], empty at the start. *)
Definition account_for {T : Type} `{Comparable T} (f : string) (line : Z)
    (expected got : list T) : M (gset nat) :=
  for_ (seq 0 (length expected)) (fun _ => true) (fun i usedIndexes =>
    do s <- find_unused expected got i usedIndexes;
    run (if negb (fst s) then
           do g <- index got i;
           FormatError (box expected) (box g)
             (Sprintf "Slice value was not accounted for | Index: %d"
                [Val (box (Z.of_nat i))])
             f line
         else ret tt);
    ret (snd s)) ∅.

Definition SlicesMatchUnordered {T : Type} `{Comparable T}
    (callers : list Frame) (expected got : list T) : M unit :=
  let '(f, line) := Caller 1 ((Test_go, 272) :: callers) in
  run (if negb (Z.eqb (len expected) (len got)) then
         FormatError (box (len expected)) (box (len got))
           (Lit "Slices do not match in length.")
           f line
       else ret tt);
  do usedIndexes <- account_for f line expected got;
  if negb (Z.eqb (Z.of_nat (size usedIndexes)) (len expected)) then
    FormatError (box expected) (box got)
      (Lit "The slices were not found to have equivalent elements.")
      f line
  else ret tt.

(** [range expected] visits the entries in an order of the runtime's
    choice: [order], a listing of the entries of [expected].  A map is a
    [gmap], whose lookup finds a key by identity: this is [got[k]] for
    the key types on which [==] is identity ([KeyIdentity] below), and
    not for a float type, where a NaN key is never found and the two
    zeros are one key. *)
Definition MapsMatch {K V : Type} `{Countable K} `{GoType K} `{GoType V}
    (callers : list Frame) (order : list (K * V))
    (expected got : gmap K V) : M unit :=
  let '(f, line) := Caller 1 ((Test_go, 318) :: callers) in
  run (if negb (Z.eqb (Z.of_nat (size expected)) (Z.of_nat (size got))) then
         FormatError (box (Z.of_nat (size expected))) (box (Z.of_nat (size got)))
           (Lit "Maps do not match in length.")
           f line
       else ret tt);
  range order (fun kv =>
    let '(k, v) := kv in
    let gotV := default zero (got !! k) in
    let ok := bool_decide (is_Some (got !! k)) in
    run (if negb ok then
           FormatError (box true) (box ok)
             (Sprintf "A key was not found | Key: %v" [Val (box k)])
             f line
         else ret tt);
    do eq <- try "runtime error: comparing uncomparable type"
               (iface_eq (box gotV) (box v));
    if negb eq then
      FormatError (box gotV) (box v)
        (Lit "The values stored in the map did not match.")
        f line
    else ret tt).

End Functions.
End smoothbraintest.

(** ** Vocabulary of the properties *)

(** A build used where a statement needs concrete paths and lines. *)
Definition example_build : runtime.Build :=
  {| runtime.Test_go := "/go/pkg/mod/github.com/barbell-math/smoothbrain-test/Test.go";
     runtime.panic_go := "/usr/local/go/src/runtime/panic.go";
     runtime.gopanic_line := 785;
     runtime.Goexit_line := 636 |}.

(** The frame of a test that calls an assertion at line 10 of its file. *)
Definition example_callers : list runtime.Frame :=
  [("/work/sample_test.go", 10); ("/usr/local/go/src/testing/testing.go", 1690)].

(** The floats [1.0], [1.0 + 1e-9], [1.1] and [1e-6], each the float64
    nearest to the decimal constant. *)
Definition f64_1 : Go.float64 := S754_finite false 4503599627370496 (-52).
Definition f64_1_plus_1e_9 : Go.float64 := S754_finite false 4503599631874096 (-52).
Definition f64_1_1 : Go.float64 := S754_finite false 4953959590107546 (-52).
Definition f64_1e_6 : Go.float64 := S754_finite false 4722366482869645 (-72).

(** Absence as the three layers of "nothing": a nil reference, a slice,
    map or pointer whose storage is nil, an interface that holds one of
    these or nothing. *)
Definition nil_storage (v : Go.value) : Prop :=
  match v with
  | Go.VSlice _ None | Go.VMap _ _ None | Go.VPtr _ None => True%type
  | _ => False%type
  end.

Definition absent (a : Go.any) : Prop :=
  a = None
  \/ (exists v, a = Some v /\ nil_storage v)
  \/ (exists held, a = Some (Go.VIface held) /\
        match held with None => True%type | Some x => nil_storage x end).

(** The tree of errors that [err] wraps, itself first, in the order of
    the walk of [errors.Is]. *)
Fixpoint tree (err : errors.error) : list errors.error :=
  err ::
  match err with
  | errors.errorString _ _ => []
  | errors.wrapError _ _ None => []
  | errors.wrapError _ _ (Some inner) => tree inner
  | errors.joinError _ errs => flat_map tree errs
  end.

(** The chain of an error value: a nil error is its own whole chain. *)
Definition chain (err : option errors.error) : list (option errors.error) :=
  match err with
  | None => [None]
  | Some e => map Some (tree e)
  end.

(** [==] on two error values. *)
Definition same_error (a b : option errors.error) : Prop :=
  match a, b with
  | None, None => True%type
  | Some x, Some y => errors.addr x = errors.addr y
  | _, _ => False%type
  end.

(** [target] wrapped once per address of [addrs] by [fmt.Errorf]. *)
Fixpoint wrapped (addrs : list N) (target : errors.error) : errors.error :=
  match addrs with
  | [] => target
  | a :: addrs' => errors.wrapError a "context" (Some (wrapped addrs' target))
  end.

(** What conversion to [any] guarantees: the dynamic type of an
    interface value is not an interface type. *)
Definition dynamic (a : Go.any) : Prop :=
  match a with
  | None => True%type
  | Some v => reflect.Type_Kind (Go.type_of v) <> reflect.Interface
  end.

(** The report of [Nil], at the position of the caller. *)
Definition Nil_report (callers : list runtime.Frame)
    (v : Go.any) : runtime.M unit :=
  smoothbraintest.FormatError None v
    (fmt.Lit "The supplied value was not nil when it was expected to be.")
    (fst (runtime.Caller 0 callers)) (snd (runtime.Caller 0 callers)).

(** The report of [NotNil], at the position of the caller. *)
Definition NotNil_report (callers : list runtime.Frame)
    (v : Go.any) : runtime.M unit :=
  smoothbraintest.FormatError (Go.box "!nil") v
    (fmt.Lit "The supplied value was nil when it was not expected to be.")
    (fst (runtime.Caller 0 callers)) (snd (runtime.Caller 0 callers)).

(** The reports of [SlicesMatch] and [SlicesMatchUnordered], at the
    position of the caller. *)
Definition length_report {T : Type}
    (callers : list runtime.Frame) (expected got : list T) : runtime.M unit :=
  smoothbraintest.FormatError
    (Go.box (smoothbraintest.len expected)) (Go.box (smoothbraintest.len got))
    (fmt.Lit "Slices do not match in length.")
    (fst (runtime.Caller 0 callers)) (snd (runtime.Caller 0 callers)).

Definition index_report {T : Type} `{Go.GoType T}
    (callers : list runtime.Frame) (i : nat) (e g : T) : runtime.M unit :=
  smoothbraintest.FormatError (Go.box e) (Go.box g)
    (fmt.Sprintf "Values do not match | Index: %d"
       [fmt.Val (Go.box (Z.of_nat i))])
    (fst (runtime.Caller 0 callers)) (snd (runtime.Caller 0 callers)).

(** [i] is the first index at which the two slices differ, with elements
    [e] and [g]. *)
Definition first_mismatch {T : Type} `{Go.Comparable T}
    (expected got : list T) (i : nat) (e g : T) : Prop :=
  expected !! i = Some e /\ got !! i = Some g /\ Go.go_eqb e g = false /\
  forall j e' g', (j < i)%nat ->
    expected !! j = Some e' -> got !! j = Some g' -> Go.go_eqb e' g' = true.

(** The two slices are equal index by index. *)
Definition pairwise_equal {T : Type} `{Go.Comparable T}
    (expected got : list T) : Prop :=
  Forall2 (fun e g => Go.go_eqb e g = true) expected got.

(** The report of [MapsMatch] on the sizes, at the position of the
    caller. *)
Definition size_report {K V : Type} `{Countable K}
    (callers : list runtime.Frame) (expected got : gmap K V) : runtime.M unit :=
  smoothbraintest.FormatError
    (Go.box (Z.of_nat (size expected))) (Go.box (Z.of_nat (size got)))
    (fmt.Lit "Maps do not match in length.")
    (fst (runtime.Caller 0 callers)) (snd (runtime.Caller 0 callers)).

(** Every key of [expected] is a key of [got], with a value that [==]
    on the two values converted to [any] finds equal. *)
Definition included {K V : Type} `{Countable K} `{Go.GoType V}
    (expected got : gmap K V) : Prop :=
  forall k v, expected !! k = Some v ->
    exists gotV, got !! k = Some gotV /\
      Go.iface_eq (Go.box gotV) (Go.box v) = Some true.

(** The element of [got] at index [j] is equal to [e]. *)
Definition matches {T : Type} `{Go.Comparable T} (got : list T)
    (e : T) (j : nat) : Prop :=
  exists g, got !! j = Some g /\ Go.go_eqb e g = true.

(** A one-to-one pairing of the elements of [expected] with equal
    elements of [got]: [js] gives, for each index of [expected] in turn,
    the index of its partner in [got], and no index of [got] is the
    partner of two. *)
Definition pairing {T : Type} `{Go.Comparable T} (expected got : list T)
    (js : list nat) : Prop :=
  NoDup js /\ Forall2 (matches got) expected js.

(** The computation [m] has handed nothing to [t.Fatal], or it has
    halted in [FormatError] with the given file and line. *)
Definition halts_at {A : Type} (file : string) (line : Z) (m : runtime.M A)
    : Prop :=
  fst m = [] \/
  exists expected got base,
    m = testing.Fatal
          (fmt.Sprintf
             ("Error | File %s Line %d | %s" +:+ smoothbraintest.newline +:+
              "Expected: (%T) '%v'" +:+ smoothbraintest.newline +:+
              "Got     : (%T) '%v'")
             [fmt.Val (Go.box file); fmt.Val (Go.box line); fmt.Str base;
              fmt.Val expected; fmt.Val expected; fmt.Val got; fmt.Val got]).

(** Every report of [m] carries the position of the caller's frame. *)
Definition reports_at_caller {A : Type} (callers : list runtime.Frame)
    (m : runtime.M A) : Prop :=
  halts_at (fst (runtime.Caller 0 callers)) (snd (runtime.Caller 0 callers)) m.

(** [got] can be reordered into a slice equal to [expected] index by
    index. *)
Definition unordered_equal {T : Type} `{Go.Comparable T}
    (expected got : list T) : Prop :=
  exists got', got' ≡ₚ got /\ pairwise_equal expected got'.

(** The types on which [==] of two values converted to [any] is [==] of
    the values: the basic types. *)
Class BoxedEq (T : Type) `{Go.Comparable T} : Prop := {
  iface_eq_box : forall x y : T,
    Go.iface_eq (Go.box x) (Go.box y) = Some (Go.go_eqb x y)
}.

(** The key types on which [==] is identity (integers, strings,
    booleans): on these the lookup of a Go map finds the entries that the
    lookup of a [gmap] finds. *)
Class KeyIdentity (K : Type) `{Go.Comparable K} : Prop := {
  key_identity : forall x y : K, Go.go_eqb x y = true <-> x = y
}.

(** A call that has returned, or has handed [t.Fatal] one message and is
    exiting; it is not panicking. *)
Definition returns_or_halts {A : Type} (m : runtime.M A) : Prop :=
  (exists a, m = runtime.ret a) \/ (exists msg, m = testing.Fatal msg).

(** A float that is a number, not an infinity and not a NaN. *)
Definition is_number (x : Go.float64) : bool :=
  match x with
  | S754_zero _ | S754_finite _ _ _ => true
  | _ => false
  end.

(* ================================================================== *)
(** * Part II. Properties *)
(* ================================================================== *)

(** ** The goroutine monad *)

Lemma bind_ret_l {A B : Type} (a : A) (k : A -> runtime.M B) :
  runtime.bind (runtime.ret a) k = k a.
Proof. unfold runtime.bind, runtime.ret. destruct (k a) as [log c]. reflexivity. Qed.

Lemma bind_Fatal {A B : Type} (msg : fmt.text) (k : A -> runtime.M B) :
  runtime.bind (testing.Fatal msg) k = testing.Fatal msg.
Proof. reflexivity. Qed.

Lemma bind_panic {A B : Type} (p : runtime.PanicValue) (k : A -> runtime.M B) :
  runtime.bind (runtime.panic p) k = runtime.panic p.
Proof. reflexivity. Qed.

#[global] Arguments runtime.bind : simpl never.
#[global] Arguments runtime.ret : simpl never.
#[global] Arguments runtime.try : simpl never.
#[global] Arguments runtime.panic : simpl never.
#[global] Arguments runtime.Caller : simpl never.
#[global] Arguments testing.Fatal : simpl never.
#[global] Arguments smoothbraintest.FormatError : simpl never.

Lemma try_Some {A : Type} (what : string) (a : A) :
  runtime.try what (Some a) = runtime.ret a.
Proof. reflexivity. Qed.

(** ** [Panics] and [NoPanic] *)

(** C3. For every action: [Panics] adds a failure report to those of the
    action exactly when the action does not panic, [NoPanic] adds one
    exactly when the action panics, neither adds more than one, and
    neither call ever ends panicking: a panic of the action is recovered
    inside the call. *)
Theorem Panics_NoPanic_recover `{B : runtime.Build}
    (callers : list runtime.Frame) (action : runtime.M unit) :
  exists own_p own_n : list fmt.text,
    fst (smoothbraintest.Panics callers action) = fst action ++ own_p /\
    fst (smoothbraintest.NoPanic callers action) = fst action ++ own_n /\
    (own_p <> [] <-> runtime.panicked action = false) /\
    (own_n <> [] <-> runtime.panicked action = true) /\
    (length own_p <= 1)%nat /\ (length own_n <= 1)%nat /\
    runtime.panicked (smoothbraintest.Panics callers action) = false /\
    runtime.panicked (smoothbraintest.NoPanic callers action) = false.
Proof.
  destruct action as [log [[] | | p]];
    unfold smoothbraintest.Panics, smoothbraintest.NoPanic,
      runtime.defer_recover, runtime.panicked; simpl.
  - eexists [_], []. rewrite app_nil_r. simpl.
    repeat split; intros; try lia; congruence.
  - eexists [_], []. rewrite app_nil_r. simpl.
    repeat split; intros; try lia; congruence.
  - eexists [], [_]. rewrite app_nil_r. simpl.
    repeat split; intros; try lia; congruence.
Qed.

(** ** [Nil] and [NotNil] *)

Lemma dynamic_to_any (v : Go.value) : dynamic (Go.to_any v).
Proof.
  induction v as [| | | | | | | | | | | held] using Go.value_rect; simpl; try discriminate.
  destruct held as [x |]; simpl; [| exact I].
  (* the held value is itself converted *)
  revert x. fix IH 1. intros x.
  destruct x as [| | | | | | | | | | | held']; simpl; try discriminate.
  destruct held' as [y |]; simpl; [apply IH | exact I].
Qed.

Lemma Kind_eqb_Interface (k : reflect.Kind) :
  k <> reflect.Interface -> reflect.Kind_eqb k reflect.Interface = false.
Proof. destruct k; simpl; congruence. Qed.

Lemma Caller_1 (here : runtime.Frame) (callers : list runtime.Frame) :
  runtime.Caller 1 (here :: callers) = runtime.Caller 0 callers.
Proof. reflexivity. Qed.

Lemma pair_fst_snd {A B C : Type} (p : A * B) (k : A -> B -> C) :
  (let '(a, b) := p in k a b) = k (fst p) (snd p).
Proof. destruct p; reflexivity. Qed.

(** Rewriting of a function body into the monad's normal form. *)
Ltac go_step :=
  rewrite ?Caller_1, ?pair_fst_snd, ?try_Some, ?bind_ret_l, ?bind_Fatal,
    ?bind_panic.

Section NilNotNil.
Context `{B : runtime.Build}.
Variable callers : list runtime.Frame.

Lemma Nil_nil : smoothbraintest.Nil callers None = runtime.ret tt.
Proof. reflexivity. Qed.

Lemma NotNil_nil :
  smoothbraintest.NotNil callers None = NotNil_report callers None.
Proof. unfold smoothbraintest.NotNil, NotNil_report. simpl. now go_step. Qed.

Lemma Nil_dynamic (v : Go.value) :
  dynamic (Some v) ->
  smoothbraintest.Nil callers (Some v) =
    if reflect.zero_value v then runtime.ret tt
    else Nil_report callers (Some v).
Proof.
  intros Hd. unfold smoothbraintest.Nil, Nil_report. simpl. go_step.
  destruct (reflect.zero_value v); [reflexivity |].
  rewrite (Kind_eqb_Interface _ Hd). now go_step.
Qed.

Lemma NotNil_dynamic (v : Go.value) :
  dynamic (Some v) ->
  smoothbraintest.NotNil callers (Some v) =
    if reflect.zero_value v then NotNil_report callers (Some v)
    else runtime.ret tt.
Proof.
  intros Hd. unfold smoothbraintest.NotNil, NotNil_report. simpl. go_step.
  destruct (reflect.zero_value v); [reflexivity |].
  rewrite (Kind_eqb_Interface _ Hd). now go_step.
Qed.

End NilNotNil.

Lemma nil_storage_zero_value (v : Go.value) :
  nil_storage v -> reflect.zero_value v = true.
Proof.
  destruct v as [| | | | e [a |] | e [d |] | k e [d |] | | | | |];
    simpl; intros H; try contradiction; reflexivity.
Qed.

Lemma absent_to_any (v : Go.value) :
  absent (Some v) ->
  Go.to_any v = None \/
  exists x, Go.to_any v = Some x /\ nil_storage x /\ dynamic (Some x).
Proof.
  intros [H | [(x & [= <-] & Hx) | (held & [= ->] & Hh)]]; [discriminate | |].
  - right. exists v. destruct v; try contradiction; simpl; repeat split;
      try discriminate; assumption.
  - destruct held as [x |]; simpl; [| now left].
    right. exists x. destruct x; try contradiction; simpl; repeat split;
      try discriminate; assumption.
Qed.

(** What [Nil] tests.  For a value converted to [any], [Nil] produces no
    failure report exactly when the value is the nil interface or the
    zero value of its dynamic type ([reflect]'s [IsZero]), and otherwise
    halts with its report at the caller's position; it never panics.
    Each of the three layers of absence passes; a slice or a map that has
    storage, empty or not, is reported. *)
Theorem Nil_passes_iff_nil_or_zero_value `{B : runtime.Build}
    (callers : list runtime.Frame) :
  (forall a : Go.any, dynamic a ->
     (fst (smoothbraintest.Nil callers a) = [] <->
        a = None \/ exists v, a = Some v /\ reflect.zero_value v = true) /\
     (fst (smoothbraintest.Nil callers a) = [] ->
        smoothbraintest.Nil callers a = runtime.ret tt) /\
     (fst (smoothbraintest.Nil callers a) <> [] ->
        smoothbraintest.Nil callers a = Nil_report callers a)) /\
  (forall v : Go.value,
     dynamic (Go.to_any v) /\
     (absent (Some v) ->
        smoothbraintest.Nil callers (Go.to_any v) = runtime.ret tt)) /\
  (forall e items,
     fst (smoothbraintest.Nil callers (Some (Go.VSlice e (Some items)))) <> []) /\
  (forall k e entries,
     fst (smoothbraintest.Nil callers (Some (Go.VMap k e (Some entries)))) <> []).
Proof.
  split; [| split; [| split]].
  - intros a Hd. destruct a as [v |].
    + rewrite (Nil_dynamic _ _ Hd).
      destruct (reflect.zero_value v) eqn:Hz; simpl.
      * split; [| split]; [| reflexivity |].
        -- split; [intros _; right; now exists v | reflexivity].
        -- intros Hne. now contradiction Hne.
      * split; [| split]; [| discriminate | reflexivity].
        split; [discriminate |].
        intros [[=] | (w & [= <-] & Hw)]. congruence.
    + rewrite Nil_nil. simpl. split; [| split]; [| reflexivity |].
      * split; [now left | reflexivity].
      * intros Hne. now contradiction Hne.
  - intros v. split; [apply dynamic_to_any |]. intros Hv.
    destruct (absent_to_any v Hv) as [-> | (x & -> & Hx & Hdx)];
      [reflexivity |].
    now rewrite (Nil_dynamic _ _ Hdx), (nil_storage_zero_value _ Hx).
  - intros e items. now rewrite Nil_dynamic.
  - intros k e entries. now rewrite Nil_dynamic.
Qed.

Lemma Nil_passes_iff_nil_or_zero_value_witness :
  dynamic (Some (Go.VSlice Go.TInt None)) /\
  (fst (smoothbraintest.Nil (B := example_build) example_callers
          (Some (Go.VSlice Go.TInt None))) = [] <->
   Some (Go.VSlice Go.TInt None) = None \/
   exists v, Some (Go.VSlice Go.TInt None) = Some v /\
             reflect.zero_value v = true).
Proof.
  assert (Hd : dynamic (Some (Go.VSlice Go.TInt None))) by (simpl; discriminate).
  split; [exact Hd |].
  exact (proj1 (proj1 (Nil_passes_iff_nil_or_zero_value (B := example_build)
                         example_callers)
                  (Some (Go.VSlice Go.TInt None)) Hd)).
Defined.

(** C2. [Nil] does not only pass on absent values: it returns without a
    report on the integer 0, on the empty string and on [false], values
    that are present and none of the three layers of absence, while it
    reports every other integer.  The test [rv.IsZero()], meant for nil
    slices, maps and pointers, holds of the zero value of every type. *)
Theorem Nil_passes_on_zero_values `{B : runtime.Build}
    (callers : list runtime.Frame) :
  smoothbraintest.Nil callers (Go.box 0) = runtime.ret tt /\
  smoothbraintest.Nil callers (Go.box EmptyString) = runtime.ret tt /\
  smoothbraintest.Nil callers (Go.box false) = runtime.ret tt /\
  ~ absent (Go.box 0) /\
  ~ absent (Go.box EmptyString) /\
  ~ absent (Go.box false) /\
  (forall n : Z, n <> 0 ->
     smoothbraintest.Nil callers (Go.box n) = Nil_report callers (Go.box n)).
Proof.
  assert (Hpresent : forall v : Go.value,
            ~ nil_storage v -> (forall held, v <> Go.VIface held) ->
            ~ absent (Some v)).
  { intros v Hs Hi [H | [(x & [= <-] & Hx) | (held & [= ->] & _)]];
      [discriminate | now apply Hs | now apply (Hi held)]. }
  split; [reflexivity |]. split; [reflexivity |]. split; [reflexivity |].
  split; [| split; [| split]].
  - apply Hpresent; [intros [] | discriminate].
  - apply Hpresent; [intros [] | discriminate].
  - apply Hpresent; [intros [] | discriminate].
  - intros n Hn. change (Go.box n) with (Some (Go.VInt n)).
    rewrite Nil_dynamic by (simpl; discriminate). simpl.
    now rewrite (proj2 (Z.eqb_neq n 0) Hn).
Qed.

(** C9. On every value converted to [any], [NotNil] produces a failure
    report exactly when [Nil] produces none, and [Nil] exactly when
    [NotNil] produces none; neither panics.  Every value passed for the
    parameter [v any] is such a value. *)
Theorem Nil_NotNil_complements `{B : runtime.Build}
    (callers : list runtime.Frame) :
  (forall a : Go.any, dynamic a ->
     (fst (smoothbraintest.NotNil callers a) <> [] <->
        fst (smoothbraintest.Nil callers a) = []) /\
     (fst (smoothbraintest.Nil callers a) <> [] <->
        fst (smoothbraintest.NotNil callers a) = []) /\
     runtime.panicked (smoothbraintest.Nil callers a) = false /\
     runtime.panicked (smoothbraintest.NotNil callers a) = false) /\
  (forall v : Go.value,
     (fst (smoothbraintest.NotNil callers (Go.to_any v)) <> [] <->
        fst (smoothbraintest.Nil callers (Go.to_any v)) = []) /\
     (fst (smoothbraintest.Nil callers (Go.to_any v)) <> [] <->
        fst (smoothbraintest.NotNil callers (Go.to_any v)) = [])).
Proof.
  assert (Hgen : forall a : Go.any, dynamic a ->
     (fst (smoothbraintest.NotNil callers a) <> [] <->
        fst (smoothbraintest.Nil callers a) = []) /\
     (fst (smoothbraintest.Nil callers a) <> [] <->
        fst (smoothbraintest.NotNil callers a) = []) /\
     runtime.panicked (smoothbraintest.Nil callers a) = false /\
     runtime.panicked (smoothbraintest.NotNil callers a) = false).
  { intros a Hd. destruct a as [v |].
    - rewrite (Nil_dynamic _ _ Hd), (NotNil_dynamic _ _ Hd).
      destruct (reflect.zero_value v); simpl; repeat split; intros; congruence.
    - rewrite Nil_nil, NotNil_nil. simpl. repeat split; intros; congruence. }
  split; [exact Hgen |]. intros v.
  destruct (Hgen (Go.to_any v) (dynamic_to_any v)) as (H1 & H2 & _).
  now split.
Qed.

Lemma Nil_NotNil_complements_witness :
  dynamic (Some (Go.VMap Go.TString Go.TInt None)) /\
  (fst (smoothbraintest.NotNil (B := example_build) example_callers
          (Some (Go.VMap Go.TString Go.TInt None))) <> [] <->
   fst (smoothbraintest.Nil (B := example_build) example_callers
          (Some (Go.VMap Go.TString Go.TInt None))) = []).
Proof.
  assert (Hd : dynamic (Some (Go.VMap Go.TString Go.TInt None)))
    by (simpl; discriminate).
  split; [exact Hd |].
  exact (proj1 (proj1 (Nil_NotNil_complements (B := example_build)
                         example_callers)
                  (Some (Go.VMap Go.TString Go.TInt None)) Hd)).
Defined.

(** ** [SlicesMatch] *)

Lemma index_lookup {A : Type} (xs : list A) (i : nat) (x : A) :
  xs !! i = Some x -> runtime.index xs i = runtime.ret x.
Proof. unfold runtime.index. now intros ->. Qed.

Lemma len_eqb {A C : Type} (xs : list A) (ys : list C) :
  Z.eqb (smoothbraintest.len xs) (smoothbraintest.len ys)
  = bool_decide (length xs = length ys).
Proof.
  unfold smoothbraintest.len. case_bool_decide as Hl.
  - rewrite Hl. apply Z.eqb_refl.
  - apply Z.eqb_neq. lia.
Qed.

Section SlicesMatch.
Context `{B : runtime.Build} {T : Type} `{CT : Go.Comparable T}.
Variable callers : list runtime.Frame.
Variables expected got : list T.

(** The body of the loop of [SlicesMatch]. *)
Let body : nat -> unit -> runtime.M unit := fun i _ =>
  runtime.bind (runtime.index expected i) (fun e =>
  runtime.bind (runtime.index got i) (fun g =>
    if negb (Go.go_eqb e g) then
      smoothbraintest.FormatError (Go.box e) (Go.box g)
        (fmt.Sprintf "Values do not match | Index: %d"
           [fmt.Val (Go.box (Z.of_nat i))])
        (fst (runtime.Caller 0 callers)) (snd (runtime.Caller 0 callers))
    else runtime.ret tt)).

Lemma SlicesMatch_unfold :
  smoothbraintest.SlicesMatch callers expected got =
    if bool_decide (length expected = length got)
    then runtime.for_ (seq 0 (length expected)) (fun _ => true) body tt
    else length_report callers expected got.
Proof.
  unfold smoothbraintest.SlicesMatch, length_report. go_step.
  rewrite len_eqb. case_bool_decide; simpl; now go_step.
Qed.

Hypothesis same_length : length expected = length got.

Lemma body_at (i : nat) :
  (i < length expected)%nat ->
  exists e g, expected !! i = Some e /\ got !! i = Some g /\
    body i tt = if negb (Go.go_eqb e g) then index_report callers i e g
                else runtime.ret tt.
Proof.
  intros Hi.
  destruct (lookup_lt_is_Some_2 expected i Hi) as [e He].
  destruct (lookup_lt_is_Some_2 got i ltac:(lia)) as [g Hg].
  exists e, g. repeat split; try assumption.
  unfold body. rewrite (index_lookup _ _ _ He), bind_ret_l,
    (index_lookup _ _ _ Hg), bind_ret_l. reflexivity.
Qed.

(** The loop from index [a] on: silent when the slices agree from [a]
    on, and only then. *)
Lemma loop_silent (n a : nat) :
  (a + n = length expected)%nat ->
  fst (runtime.for_ (seq a n) (fun _ => true) body tt) = [] <->
  (forall j e g, (a <= j)%nat ->
     expected !! j = Some e -> got !! j = Some g -> Go.go_eqb e g = true).
Proof.
  revert a. induction n as [| n IH]; intros a Han; simpl.
  - split; [| reflexivity]. intros _ j e g Hj He Hg.
    apply lookup_lt_Some in He. lia.
  - destruct (body_at a ltac:(lia)) as (e & g & He & Hg & ->).
    destruct (Go.go_eqb e g) eqn:Heg; simpl.
    + rewrite bind_ret_l, (IH (S a)) by lia. split.
      * intros Hall j e' g' Hj He' Hg'.
        destruct (decide (j = a)) as [-> | Hne]; [congruence |].
        apply (Hall j); [lia | assumption | assumption].
      * intros Hall j e' g' Hj. apply Hall. lia.
    + split; [discriminate |]. intros Hall.
      specialize (Hall a e g ltac:(lia) He Hg). congruence.
Qed.

Lemma loop_returns (n a : nat) :
  (a + n = length expected)%nat ->
  fst (runtime.for_ (seq a n) (fun _ => true) body tt) = [] ->
  runtime.for_ (seq a n) (fun _ => true) body tt = runtime.ret tt.
Proof.
  revert a. induction n as [| n IH]; intros a Han; simpl; [reflexivity |].
  destruct (body_at a ltac:(lia)) as (e & g & He & Hg & ->).
  destruct (Go.go_eqb e g); simpl; [| discriminate].
  rewrite bind_ret_l. apply IH. lia.
Qed.

(** The loop from index [a] on stops at the first mismatch. *)
Lemma loop_first_mismatch (n a i : nat) (e g : T) :
  (a + n = length expected)%nat -> (a <= i)%nat ->
  expected !! i = Some e -> got !! i = Some g -> Go.go_eqb e g = false ->
  (forall j e' g', (a <= j < i)%nat ->
     expected !! j = Some e' -> got !! j = Some g' -> Go.go_eqb e' g' = true) ->
  runtime.for_ (seq a n) (fun _ => true) body tt = index_report callers i e g.
Proof.
  revert a. induction n as [| n IH]; intros a Han Hai He Hg Heg Hbefore; simpl.
  - apply lookup_lt_Some in He. lia.
  - destruct (body_at a ltac:(lia)) as (e' & g' & He' & Hg' & ->).
    destruct (decide (i = a)) as [-> | Hne].
    + assert (e' = e) as -> by congruence. assert (g' = g) as -> by congruence.
      rewrite Heg. reflexivity.
    + rewrite (Hbefore a e' g') by (try lia; assumption). simpl.
      rewrite bind_ret_l. apply IH; try assumption; try lia.
      intros j e'' g'' Hj. apply Hbefore. lia.
Qed.

End SlicesMatch.

(** C5. [SlicesMatch] produces no failure report exactly when the two
    slices have the same length and are equal index by index, and then it
    returns; when the lengths differ the report is the one on the length;
    when they agree the report names the first index whose elements
    differ.  [SlicesMatch([1,2,3], [1,2,3])] passes, [([1,2,3], [3,2,1])]
    halts at index 0, [([1,2], [1,2,3])] halts on the length. *)
Theorem SlicesMatch_spec `{B : runtime.Build} (callers : list runtime.Frame) :
  (forall (T : Type) (GT : Go.GoType T) (CT : Go.Comparable T)
          (expected got : list T),
     (fst (smoothbraintest.SlicesMatch callers expected got) = [] <->
        length expected = length got /\ pairwise_equal expected got) /\
     (fst (smoothbraintest.SlicesMatch callers expected got) = [] ->
        smoothbraintest.SlicesMatch callers expected got = runtime.ret tt) /\
     (length expected <> length got ->
        smoothbraintest.SlicesMatch callers expected got
        = length_report callers expected got) /\
     (length expected = length got ->
        forall i e g, first_mismatch expected got i e g ->
          smoothbraintest.SlicesMatch callers expected got
          = index_report callers i e g)) /\
  smoothbraintest.SlicesMatch callers [1; 2; 3] [1; 2; 3] = runtime.ret tt /\
  smoothbraintest.SlicesMatch callers [1; 2; 3] [3; 2; 1]
    = index_report callers 0 1 3 /\
  smoothbraintest.SlicesMatch callers [1; 2] [1; 2; 3]
    = length_report callers [1; 2] [1; 2; 3].
Proof.
  split; [| repeat split; rewrite SlicesMatch_unfold; reflexivity].
  intros T GT CT expected got. rewrite SlicesMatch_unfold.
  case_bool_decide as Hl.
  - pose proof (loop_silent callers expected got Hl (length expected) 0 eq_refl)
      as Hsilent.
    split; [| split; [| split]].
    + rewrite Hsilent. unfold pairwise_equal.
      rewrite Forall2_same_length_lookup. split.
      * intros Hall. split; [assumption |]. split; [assumption |].
        intros i e g. apply Hall. lia.
      * intros (_ & _ & Hall) j e g _. apply Hall.
    + apply (loop_returns callers expected got Hl). reflexivity.
    + intros Hne. contradiction.
    + intros _ i e g (He & Hg & Heg & Hbefore).
      apply (loop_first_mismatch callers expected got Hl); try assumption;
        [reflexivity | lia |].
      intros j e' g' Hj. apply Hbefore. lia.
  - split; [| split; [| split]].
    + split; [discriminate | intros [Hl' _]; contradiction].
    + discriminate.
    + reflexivity.
    + intros Heq. contradiction.
Qed.

(** ** [ContainsError] *)

(** Induction over an error and everything it wraps. *)
Lemma error_tree_ind (P : errors.error -> Prop) :
  (forall a s, P (errors.errorString a s)) ->
  (forall a msg, P (errors.wrapError a msg None)) ->
  (forall a msg inner, P inner -> P (errors.wrapError a msg (Some inner))) ->
  (forall a errs, Forall P errs -> P (errors.joinError a errs)) ->
  forall err, P err.
Proof.
  intros Hs Hn Hw Hj. fix IH 1. intros [a s | a msg [inner |] | a errs].
  - apply Hs.
  - apply Hw, IH.
  - apply Hn.
  - apply Hj. induction errs as [| e errs IHerrs]; constructor;
      [apply IH | exact IHerrs].
Qed.

Lemma same_addr (x y : errors.error) :
  errors.same x y = true <-> errors.addr x = errors.addr y.
Proof. unfold errors.same. apply N.eqb_eq. Qed.

(** The walk of [errors.Is] finds the target exactly when one of the
    errors of the tree has the target's address. *)
Lemma is_tree (target err : errors.error) :
  errors.is_ err target = true <->
  exists x, x ∈ tree err /\ errors.addr x = errors.addr target.
Proof.
  induction err as [a s | a msg | a msg inner IH | a errs IH] using error_tree_ind;
    simpl; rewrite orb_true_iff, same_addr.
  - split.
    + intros [H | H]; [| discriminate]. eexists. split; [apply list_elem_of_here | exact H].
    + intros (x & Hx & Ha). apply list_elem_of_singleton in Hx as ->. now left.
  - split.
    + intros [H | H]; [| discriminate]. eexists. split; [apply list_elem_of_here | exact H].
    + intros (x & Hx & Ha). apply list_elem_of_singleton in Hx as ->. now left.
  - rewrite IH. split.
    + intros [H | (x & Hx & Ha)].
      * eexists. split; [apply list_elem_of_here | exact H].
      * exists x. split; [now apply list_elem_of_further | exact Ha].
    + intros (x & Hx & Ha). apply elem_of_cons in Hx as [-> | Hx];
        [now left | right; now exists x].
  - rewrite existsb_exists. split.
    + intros [H | (e & He & His)].
      * eexists. split; [apply list_elem_of_here | exact H].
      * apply list_elem_of_In in He. rewrite Forall_forall in IH.
        apply (IH e He) in His as (x & Hx & Ha).
        exists x. split; [| exact Ha]. apply list_elem_of_further.
        apply list_elem_of_In, in_flat_map. exists e.
        split; apply list_elem_of_In; assumption.
    + intros (x & Hx & Ha). apply elem_of_cons in Hx as [-> | Hx];
        [now left | right].
      apply list_elem_of_In, in_flat_map in Hx as (e & He & Hx).
      exists e. split; [assumption |]. apply list_elem_of_In in He.
      rewrite Forall_forall in IH. apply (IH e He). exists x.
      split; [now apply list_elem_of_In | exact Ha].
Qed.

Lemma wrapped_in_tree (addrs : list N) (target : errors.error) :
  target ∈ tree (wrapped addrs target).
Proof.
  induction addrs as [| a addrs IH]; simpl.
  - destruct target as [? ? | ? ? [?|] | ? ?]; apply list_elem_of_here.
  - now apply list_elem_of_further.
Qed.

(** C6. [ContainsError] produces no failure report exactly when an error
    of the chain of [got] (the error itself, what it wraps, what that
    wraps, and so on through every branch) is the expected error, and
    then it returns; otherwise it halts with one report.  In particular
    it passes on the expected error wrapped any number of times. *)
Theorem ContainsError_spec `{B : runtime.Build} (callers : list runtime.Frame)
    (expected got : option errors.error) :
  (fst (smoothbraintest.ContainsError callers expected got) = [] <->
     exists x, x ∈ chain got /\ same_error x expected) /\
  (fst (smoothbraintest.ContainsError callers expected got) = [] ->
     smoothbraintest.ContainsError callers expected got = runtime.ret tt) /\
  (fst (smoothbraintest.ContainsError callers expected got) <> [] ->
     exists msg, smoothbraintest.ContainsError callers expected got
                 = testing.Fatal msg) /\
  (forall (addrs : list N) (target : errors.error),
     smoothbraintest.ContainsError callers (Some target)
       (Some (wrapped addrs target)) = runtime.ret tt).
Proof.
  assert (Hfound : errors.Is got expected = true <->
            exists x, x ∈ chain got /\ same_error x expected).
  { destruct got as [g |], expected as [t |]; simpl.
    - rewrite is_tree. split.
      + intros (x & Hx & Ha). exists (Some x). split; [| exact Ha].
        now apply list_elem_of_fmap_2.
      + intros (x & Hx & Ha). apply list_elem_of_fmap in Hx as (y & -> & Hy).
        now exists y.
    - split; [discriminate |]. intros (x & Hx & Ha).
      apply list_elem_of_fmap in Hx as (y & -> & Hy). contradiction.
    - split; [discriminate |]. intros (x & Hx & Ha).
      apply list_elem_of_singleton in Hx as ->. contradiction.
    - split; [| reflexivity]. intros _. exists None.
      split; [apply list_elem_of_here | exact I]. }
  unfold smoothbraintest.ContainsError. repeat split.
  - rewrite <- Hfound. destruct (errors.Is got expected); simpl; [reflexivity |].
    go_step. discriminate.
  - rewrite <- Hfound. now intros ->.
  - destruct (errors.Is got expected); simpl; [reflexivity |].
    go_step. discriminate.
  - destruct (errors.Is got expected); simpl; [intros H; now contradiction H |].
    go_step. intros _. eexists. reflexivity.
  - intros addrs target.
    assert (errors.Is (Some (wrapped addrs target)) (Some target) = true) as ->;
      [| reflexivity].
    apply is_tree. exists target. split; [apply wrapped_in_tree | reflexivity].
Qed.

(** ** [MapsMatch] *)

Lemma bind_eq_ret {A : Type} (m : runtime.M A) (k : A -> runtime.M unit) :
  runtime.bind m k = runtime.ret tt <->
  exists a, m = runtime.ret a /\ k a = runtime.ret tt.
Proof.
  unfold runtime.bind, runtime.ret. destruct m as [log [a | | p]].
  - destruct (k a) as [log' c] eqn:Hk. split.
    + intros [= Hlog ->]. apply app_eq_nil in Hlog as [-> ->]. now exists a.
    + intros (a' & Heq & Hk'). injection Heq as -> <-.
      rewrite Hk in Hk'. injection Hk' as -> ->. reflexivity.
  - split; [discriminate | intros (a & [=] & _)].
  - split; [discriminate | intros (a & [=] & _)].
Qed.

Lemma range_ext {A : Type} (xs : list A) (f g : A -> runtime.M unit) :
  (forall x, f x = g x) -> runtime.range xs f = runtime.range xs g.
Proof.
  intros Hfg. induction xs as [| x xs IH]; simpl; [reflexivity |].
  now rewrite Hfg, IH.
Qed.

Lemma range_eq_ret {A : Type} (xs : list A) (body : A -> runtime.M unit) :
  runtime.range xs body = runtime.ret tt <->
  Forall (fun x => body x = runtime.ret tt) xs.
Proof.
  induction xs as [| x xs IH]; simpl.
  - split; [constructor | reflexivity].
  - rewrite bind_eq_ret, Forall_cons, <- IH. split.
    + intros ([] & Hx & Hxs). now split.
    + intros [Hx Hxs]. now exists tt.
Qed.

(** A silent computation has returned or is panicking when each step is
    of that kind. *)
Lemma range_silent {A : Type} (xs : list A) (body : A -> runtime.M unit) :
  (forall x, x ∈ xs -> fst (body x) = [] ->
     body x = runtime.ret tt \/ runtime.panicked (body x) = true) ->
  fst (runtime.range xs body) = [] ->
  runtime.range xs body = runtime.ret tt \/
  runtime.panicked (runtime.range xs body) = true.
Proof.
  induction xs as [| x xs IH]; simpl; intros Hbody; [now left |].
  pose proof (Hbody x (list_elem_of_here _ _)) as Hx.
  destruct (body x) as [log [[] | | p]] eqn:Ex; unfold runtime.bind.
  - destruct (runtime.range xs body) as [log' c] eqn:Er. simpl.
    intros Hlog. apply app_eq_nil in Hlog as [-> ->].
    destruct IH as [IH | IH]; [intros y Hy; apply Hbody; now right | reflexivity | |].
    + left. exact IH.
    + right. exact IH.
  - simpl. intros ->. destruct (Hx eq_refl) as [H | H]; discriminate.
  - simpl. intros ->. now right.
Qed.

Lemma range_silent_ret {A : Type} (xs : list A) (body : A -> runtime.M unit) :
  (forall x, fst (body x) = [] -> body x = runtime.ret tt) ->
  fst (runtime.range xs body) = [] ->
  runtime.range xs body = runtime.ret tt.
Proof.
  intros Hbody. induction xs as [| x xs IH]; simpl; [reflexivity |].
  pose proof (Hbody x) as Hx.
  destruct (body x) as [log [[] | | p]]; unfold runtime.bind.
  - destruct (runtime.range xs body) as [log' c]. simpl in *.
    intros Hlog. apply app_eq_nil in Hlog as [-> ->].
    now injection (IH eq_refl) as ->.
  - simpl. intros ->. specialize (Hx eq_refl). discriminate.
  - simpl. intros ->. specialize (Hx eq_refl). discriminate.
Qed.

#[global] Instance bool_BoxedEq : BoxedEq bool.
Proof. now split. Qed.

#[global] Instance int_BoxedEq : BoxedEq Z.
Proof. now split. Qed.

#[global] Instance float64_BoxedEq : BoxedEq Go.float64.
Proof. now split. Qed.

#[global] Instance string_BoxedEq : BoxedEq string.
Proof. now split. Qed.

#[global] Instance bool_KeyIdentity : KeyIdentity bool.
Proof. split. intros [] []; simpl; split; congruence. Qed.

#[global] Instance int_KeyIdentity : KeyIdentity Z.
Proof. split. intros x y. apply Z.eqb_eq. Qed.

#[global] Instance string_KeyIdentity : KeyIdentity string.
Proof. split. intros x y. apply String.eqb_eq. Qed.

Section MapsMatch.
Context `{B : runtime.Build} {K V : Type} `{Countable K}
  `{GK : Go.GoType K} `{GV : Go.GoType V}.
Variable callers : list runtime.Frame.
Variables expected got : gmap K V.

(** The body of the loop of [MapsMatch]. *)
Let body : K * V -> runtime.M unit := fun kv =>
  let gotV := default Go.zero (got !! fst kv) in
  let ok := bool_decide (is_Some (got !! fst kv)) in
  runtime.bind
    (if negb ok then
       smoothbraintest.FormatError (Go.box true) (Go.box ok)
         (fmt.Sprintf "A key was not found | Key: %v" [fmt.Val (Go.box (fst kv))])
         (fst (runtime.Caller 0 callers)) (snd (runtime.Caller 0 callers))
     else runtime.ret tt)
    (fun _ =>
       runtime.bind
         (runtime.try "runtime error: comparing uncomparable type"
            (Go.iface_eq (Go.box gotV) (Go.box (snd kv))))
         (fun eq =>
            if negb eq then
              smoothbraintest.FormatError (Go.box gotV) (Go.box (snd kv))
                (fmt.Lit "The values stored in the map did not match.")
                (fst (runtime.Caller 0 callers)) (snd (runtime.Caller 0 callers))
            else runtime.ret tt)).

Lemma MapsMatch_unfold (order : list (K * V)) :
  smoothbraintest.MapsMatch callers order expected got =
    if bool_decide (size expected = size got)
    then runtime.range order body
    else size_report callers expected got.
Proof.
  unfold smoothbraintest.MapsMatch, size_report. go_step.
  assert (Z.eqb (Z.of_nat (size expected)) (Z.of_nat (size got))
          = bool_decide (size expected = size got)) as ->.
  { case_bool_decide as Hs; [rewrite Hs; apply Z.eqb_refl | apply Z.eqb_neq; lia]. }
  case_bool_decide; simpl; go_step; [| reflexivity].
  apply range_ext. intros [k v]. unfold body. simpl. now go_step.
Qed.

Lemma body_present (k : K) (v gotV : V) :
  got !! k = Some gotV ->
  body (k, v) =
    match Go.iface_eq (Go.box gotV) (Go.box v) with
    | Some true => runtime.ret tt
    | Some false =>
        smoothbraintest.FormatError (Go.box gotV) (Go.box v)
          (fmt.Lit "The values stored in the map did not match.")
          (fst (runtime.Caller 0 callers)) (snd (runtime.Caller 0 callers))
    | None => runtime.panic (runtime.Error "runtime error: comparing uncomparable type")
    end.
Proof.
  intros Hk. unfold body. simpl. rewrite Hk. simpl. go_step.
  destruct (Go.iface_eq _ _) as [[] |]; simpl; now go_step.
Qed.

Lemma body_missing (k : K) (v : V) :
  got !! k = None ->
  exists msg, body (k, v) = testing.Fatal msg.
Proof.
  intros Hk. unfold body. simpl. rewrite Hk. simpl.
  eexists. unfold smoothbraintest.FormatError. now go_step.
Qed.

Lemma body_ret (k : K) (v : V) :
  body (k, v) = runtime.ret tt <->
  exists gotV, got !! k = Some gotV /\
    Go.iface_eq (Go.box gotV) (Go.box v) = Some true.
Proof.
  destruct (got !! k) as [gotV |] eqn:Hk.
  - rewrite (body_present k v gotV Hk). split.
    + intros Hb. exists gotV. split; [reflexivity |].
      destruct (Go.iface_eq _ _) as [[] |]; [reflexivity | discriminate | discriminate].
    + intros (g & [= <-] & ->). reflexivity.
  - destruct (body_missing k v Hk) as [msg ->]. split; [discriminate |].
    intros (g & [=] & _).
Qed.

Lemma body_silent (kv : K * V) :
  fst (body kv) = [] ->
  body kv = runtime.ret tt \/ runtime.panicked (body kv) = true.
Proof.
  destruct kv as [k v]. destruct (got !! k) as [gotV |] eqn:Hk.
  - rewrite (body_present k v gotV Hk).
    destruct (Go.iface_eq _ _) as [[] |]; [now left | discriminate | now right].
  - destruct (body_missing k v Hk) as [msg ->]. discriminate.
Qed.

Lemma MapsMatch_passes (order : list (K * V)) :
  order ≡ₚ map_to_list expected ->
  smoothbraintest.MapsMatch callers order expected got = runtime.ret tt <->
  size expected = size got /\ included expected got.
Proof.
  intros Hperm. rewrite MapsMatch_unfold. case_bool_decide as Hs.
  - rewrite range_eq_ret, Forall_forall. unfold included. split.
    + intros Hall. split; [assumption |]. intros k v Hkv.
      apply body_ret, Hall. rewrite Hperm. now apply elem_of_map_to_list.
    + intros [_ Hinc] [k v] Hkv. apply body_ret, Hinc.
      rewrite Hperm in Hkv. now apply elem_of_map_to_list.
  - split; [discriminate | intros [Hs' _]; contradiction].
Qed.

Lemma MapsMatch_silent (order : list (K * V)) :
  fst (smoothbraintest.MapsMatch callers order expected got) = [] ->
  smoothbraintest.MapsMatch callers order expected got = runtime.ret tt \/
  runtime.panicked (smoothbraintest.MapsMatch callers order expected got) = true.
Proof.
  rewrite MapsMatch_unfold. case_bool_decide; [| discriminate].
  apply range_silent. intros kv _. apply body_silent.
Qed.

(** Where [==] on the values cannot panic, a call without a report has
    returned. *)
Lemma MapsMatch_boxed_silent `{CV : !Go.Comparable V} `{!BoxedEq V}
    (order : list (K * V)) :
  fst (smoothbraintest.MapsMatch callers order expected got) = [] ->
  smoothbraintest.MapsMatch callers order expected got = runtime.ret tt.
Proof.
  rewrite MapsMatch_unfold. case_bool_decide; [| discriminate].
  apply range_silent_ret. intros [k v].
  destruct (got !! k) as [gotV |] eqn:Hk.
  - rewrite (body_present k v gotV Hk), iface_eq_box.
    destruct (Go.go_eqb gotV v); [reflexivity | discriminate].
  - destruct (body_missing k v Hk) as [msg ->]. discriminate.
Qed.

(** The comparison of the first entry visited panics. *)
Lemma MapsMatch_first_panics (k : K) (v gotV : V) (rest : list (K * V)) :
  size expected = size got ->
  got !! k = Some gotV ->
  Go.iface_eq (Go.box gotV) (Go.box v) = None ->
  smoothbraintest.MapsMatch callers ((k, v) :: rest) expected got
  = runtime.panic (runtime.Error "runtime error: comparing uncomparable type").
Proof.
  intros Hs Hk Heq. rewrite MapsMatch_unfold, bool_decide_eq_true_2 by assumption.
  simpl. rewrite (body_present k v gotV Hk), Heq. apply bind_panic.
Qed.

End MapsMatch.

Lemma type_eqb_refl (t : Go.type) : Go.type_eqb t t = true.
Proof.
  revert t. fix IH 1. intros [| | | | e | e | k e | | e | n e | fields |];
    simpl; rewrite ?IH, ?Nat.eqb_refl; try reflexivity.
  induction fields as [| f fields IHf]; [reflexivity |].
  now rewrite IH, IHf.
Qed.

(** Two slices converted to [any] cannot be compared. *)
Lemma iface_eq_slices {T : Type} `{Go.GoType T} (xs ys : list T) :
  Go.iface_eq (Go.box xs) (Go.box ys) = None.
Proof.
  unfold Go.iface_eq, Go.box. simpl. now rewrite type_eqb_refl.
Qed.

(** C4 (as amended).  For maps whose keys are of a type on which [==]
    is identity, and whatever the order in which [range] visits the
    entries of [expected]: [MapsMatch] returns without a report exactly
    when the two maps have the same size and every key of [expected] is
    in [got] with an equal value; where [==] on the values cannot panic
    this is exactly when it produces no failure report; on other values a
    call without a report has returned or is panicking; different sizes
    give the report on the length.  [MapsMatch({a:1,b:2}, {b:2,a:1})]
    passes in both orders, and [MapsMatch({a:1}, {a:1,b:2})] halts on the
    length. *)
Theorem MapsMatch_spec `{B : runtime.Build} (callers : list runtime.Frame) :
  (forall (K : Type) (EK : EqDecision K) (CK : Countable K)
          (GK : Go.GoType K) (CoK : Go.Comparable K) (IK : KeyIdentity K)
          (V : Type) (GV : Go.GoType V)
          (expected got : gmap K V) (order : list (K * V)),
     order ≡ₚ map_to_list expected ->
     (smoothbraintest.MapsMatch callers order expected got = runtime.ret tt <->
        size expected = size got /\ included expected got) /\
     (forall (CV : Go.Comparable V) (BE : BoxedEq V),
        fst (smoothbraintest.MapsMatch callers order expected got) = [] <->
        size expected = size got /\ included expected got) /\
     (fst (smoothbraintest.MapsMatch callers order expected got) = [] ->
        smoothbraintest.MapsMatch callers order expected got = runtime.ret tt \/
        runtime.panicked (smoothbraintest.MapsMatch callers order expected got)
        = true) /\
     (size expected <> size got ->
        smoothbraintest.MapsMatch callers order expected got
        = size_report callers expected got)) /\
  smoothbraintest.MapsMatch callers [("a", 1); ("b", 2)]
    (<["a" := 1]> (<["b" := 2]> ∅) : gmap string Z)
    (<["b" := 2]> (<["a" := 1]> ∅)) = runtime.ret tt /\
  smoothbraintest.MapsMatch callers [("b", 2); ("a", 1)]
    (<["a" := 1]> (<["b" := 2]> ∅) : gmap string Z)
    (<["b" := 2]> (<["a" := 1]> ∅)) = runtime.ret tt /\
  smoothbraintest.MapsMatch callers [("a", 1)]
    (<["a" := 1]> ∅ : gmap string Z) (<["a" := 1]> (<["b" := 2]> ∅))
  = size_report callers (<["a" := 1]> ∅ : gmap string Z)
      (<["a" := 1]> (<["b" := 2]> ∅)).
Proof.
  split; [| repeat split; rewrite MapsMatch_unfold; reflexivity].
  intros K EK CK GK CoK IK V GV expected got order Hperm.
  split; [| split; [| split]].
  - now apply MapsMatch_passes.
  - intros CV BE.
    rewrite <- (MapsMatch_passes callers expected got order Hperm). split.
    + intros Hsilent.
      exact (MapsMatch_boxed_silent callers expected got order Hsilent).
    + now intros ->.
  - apply MapsMatch_silent.
  - intros Hs. rewrite MapsMatch_unfold. now rewrite bool_decide_eq_false_2.
Qed.

Lemma MapsMatch_spec_witness :
  [("b", 2); ("a", 1)] ≡ₚ map_to_list (<["a" := 1]> (<["b" := 2]> ∅) : gmap string Z) /\
  (fst (smoothbraintest.MapsMatch (B := example_build) example_callers
          [("b", 2); ("a", 1)]
          (<["a" := 1]> (<["b" := 2]> ∅) : gmap string Z)
          (<["b" := 2]> (<["a" := 1]> ∅))) = [] <->
   size (<["a" := 1]> (<["b" := 2]> ∅) : gmap string Z)
   = size (<["b" := 2]> (<["a" := 1]> ∅) : gmap string Z) /\
   included (<["a" := 1]> (<["b" := 2]> ∅) : gmap string Z)
     (<["b" := 2]> (<["a" := 1]> ∅))).
Proof.
  assert (Hperm : [("b", 2); ("a", 1)]
            ≡ₚ map_to_list (<["a" := 1]> (<["b" := 2]> ∅) : gmap string Z)).
  { rewrite map_to_list_insert by reflexivity.
    rewrite map_to_list_insert by reflexivity.
    rewrite map_to_list_empty. apply Permutation_swap. }
  split; [exact Hperm |].
  exact (proj1 (proj2 (proj1 (MapsMatch_spec (B := example_build)
                                example_callers)
                         string _ _ _ _ _ Z _
                         (<["a" := 1]> (<["b" := 2]> ∅))
                         (<["b" := 2]> (<["a" := 1]> ∅))
                         [("b", 2); ("a", 1)] Hperm))
           Go.int_Comparable int_BoxedEq).
Defined.

(** C4 as stated fails: on two maps of one size whose slices under the
    key [a] differ, [MapsMatch] produces no failure report (it ends in a
    run-time panic) although the value of [a] in the one map is not equal
    to its value in the other. *)
Lemma MapsMatch_silent_on_unequal_slices :
  fst (smoothbraintest.MapsMatch (B := example_build) example_callers
         [("a", [1])]
         ({["a" := [1]]} : gmap string (list Z)) {["a" := [2]]}) = [] /\
  [("a", [1])] ≡ₚ map_to_list ({["a" := [1]]} : gmap string (list Z)) /\
  size ({["a" := [1]]} : gmap string (list Z))
  = size ({["a" := [2]]} : gmap string (list Z)) /\
  ({["a" := [2]]} : gmap string (list Z)) !! "a" = Some [2] /\
  [1] <> [2] :> list Z /\
  ~ included ({["a" := [1]]} : gmap string (list Z)) {["a" := [2]]} /\
  runtime.panicked
    (smoothbraintest.MapsMatch (B := example_build) example_callers
       [("a", [1])]
       ({["a" := [1]]} : gmap string (list Z)) {["a" := [2]]}) = true.
Proof.
  assert (Hrun : smoothbraintest.MapsMatch (B := example_build) example_callers
            [("a", [1])]
            ({["a" := [1]]} : gmap string (list Z)) {["a" := [2]]}
          = runtime.panic
              (runtime.Error "runtime error: comparing uncomparable type")).
  { apply (MapsMatch_first_panics _ _ _ "a" [1] [2] []);
      [now rewrite !map_size_singleton | reflexivity |].
    apply iface_eq_slices. }
  rewrite Hrun. split; [reflexivity |].
  split; [now rewrite map_to_list_singleton |].
  split; [now rewrite !map_size_singleton |].
  split; [reflexivity |].
  split; [discriminate |].
  split; [| reflexivity].
  intros Hinc. destruct (Hinc "a" [1] eq_refl) as (g & _ & Heq).
  now rewrite iface_eq_slices in Heq.
Qed.

(** C10. [MapsMatch] compares the values as interface values, so on two
    maps of slices with the same keys, the expected one not empty, it
    ends in a run-time panic and without a failure report, whatever the
    slices hold and whatever the order of the visit. *)
Theorem MapsMatch_slice_values_panic `{B : runtime.Build}
    (callers : list runtime.Frame)
    (K : Type) (EK : EqDecision K) (CK : Countable K) (GK : Go.GoType K)
    (T : Type) (GT : Go.GoType T)
    (expected got : gmap K (list T)) (order : list (K * list T)) :
  order ≡ₚ map_to_list expected ->
  expected <> ∅ ->
  dom expected = dom got ->
  smoothbraintest.MapsMatch callers order expected got
  = runtime.panic (runtime.Error "runtime error: comparing uncomparable type").
Proof.
  intros Hperm Hne Hdom.
  assert (Hs : size expected = size got)
    by (rewrite <- !size_dom; now rewrite Hdom).
  destruct order as [| [k v] rest].
  - apply Permutation_nil_l in Hperm. symmetry in Hperm.
    apply map_to_list_empty_iff in Hperm. contradiction.
  - assert (Hkv : expected !! k = Some v).
    { apply elem_of_map_to_list. rewrite <- Hperm. apply list_elem_of_here. }
    assert (Hk : k ∈ dom got) by (rewrite <- Hdom; apply elem_of_dom; exists v; exact Hkv).
    apply elem_of_dom in Hk as [gotV Hk].
    apply (MapsMatch_first_panics callers expected got k v gotV rest Hs Hk).
    apply iface_eq_slices.
Qed.

Lemma MapsMatch_slice_values_panic_witness :
  [("a", [1])] ≡ₚ map_to_list ({["a" := [1]]} : gmap string (list Z)) /\
  ({["a" := [1]]} : gmap string (list Z)) <> ∅ /\
  dom ({["a" := [1]]} : gmap string (list Z))
  = dom ({["a" := [1]]} : gmap string (list Z)) /\
  smoothbraintest.MapsMatch (B := example_build) example_callers
    [("a", [1])] ({["a" := [1]]} : gmap string (list Z)) {["a" := [1]]}
  = ([], runtime.Panicking
           (runtime.Error "runtime error: comparing uncomparable type")).
Proof.
  assert (Hperm : [("a", [1])]
            ≡ₚ map_to_list ({["a" := [1]]} : gmap string (list Z)))
    by (now rewrite map_to_list_singleton).
  assert (Hne : ({["a" := [1]]} : gmap string (list Z)) <> ∅)
    by apply map_non_empty_singleton.
  split; [exact Hperm |]. split; [exact Hne |]. split; [reflexivity |].
  exact (MapsMatch_slice_values_panic (B := example_build) example_callers
           string _ _ _ Z _ _ _ _ Hperm Hne eq_refl).
Defined.

(** ** [EqFloat] *)

Lemma SFcompare_antisym (x y : spec_float) :
  SFcompare y x = CompOpp <$> SFcompare x y.
Proof.
  destruct x as [sx | sx | | sx mx ex], y as [sy | sy | | sy my ey]; simpl;
    try destruct sx; try destruct sy; simpl; try reflexivity.
  all: rewrite (Z.compare_antisym ex ey);
    destruct (Z.compare ex ey); simpl; try reflexivity;
    pose proof (Pos.compare_cont_antisym mx my Eq) as Ha; simpl in Ha;
    rewrite <- Ha; now destruct (Pos.compare_cont Eq mx my).
Qed.

(** [x > y] is the negation of [x <= y] unless one side is a NaN. *)
Lemma SFltb_SFleb (x y : spec_float) :
  SFcompare x y <> None -> SFltb y x = negb (SFleb x y).
Proof.
  unfold SFltb, SFleb. rewrite (SFcompare_antisym x y).
  destruct (SFcompare x y) as [[] |]; simpl; congruence.
Qed.

Lemma SFsub_nan_r (x : spec_float) : SFsub 53 1024 x S754_nan = S754_nan.
Proof. now destruct x. Qed.

Lemma SFltb_nan_r (x : spec_float) : SFltb x S754_nan = false.
Proof. now destruct x. Qed.

Section EqFloat.
Context `{B : runtime.Build}.
Variable callers : list runtime.Frame.

(** Away from NaN, [EqFloat] produces no failure report exactly when
    the rounded difference is at most [eps] in absolute value. *)
Lemma EqFloat_within (expected got eps : Go.float64) :
  SFcompare (math.Abs (SFsub 53 1024 expected got)) eps <> None ->
  fst (smoothbraintest.EqFloat callers expected got eps) = [] <->
  SFleb (math.Abs (SFsub 53 1024 expected got)) eps = true.
Proof.
  intros Hnan. unfold smoothbraintest.EqFloat. rewrite (SFltb_SFleb _ _ Hnan).
  destruct (SFleb _ eps); simpl; go_step; [tauto |].
  split; discriminate.
Qed.

(** The two examples of the documentation. *)
Lemma EqFloat_examples :
  smoothbraintest.EqFloat callers f64_1 f64_1_plus_1e_9 f64_1e_6 = runtime.ret tt /\
  fst (smoothbraintest.EqFloat callers f64_1 f64_1_1 f64_1e_6) <> [].
Proof.
  split; [reflexivity |].
  unfold smoothbraintest.EqFloat.
  replace (SFltb f64_1e_6 (math.Abs (SFsub 53 1024 f64_1 f64_1_1))) with true
    by (vm_compute; reflexivity).
  go_step. discriminate.
Qed.

End EqFloat.

Lemma EqFloat_within_witness :
  SFcompare (math.Abs (SFsub 53 1024 f64_1 f64_1_1)) f64_1e_6 <> None /\
  (fst (smoothbraintest.EqFloat (B := example_build) example_callers
          f64_1 f64_1_1 f64_1e_6) = [] <->
   SFleb (math.Abs (SFsub 53 1024 f64_1 f64_1_1)) f64_1e_6 = true).
Proof.
  assert (Hnan : SFcompare (math.Abs (SFsub 53 1024 f64_1 f64_1_1)) f64_1e_6
                 <> None) by (vm_compute; discriminate).
  split; [exact Hnan |].
  exact (EqFloat_within (B := example_build) example_callers
           f64_1 f64_1_1 f64_1e_6 Hnan).
Defined.

(** C7 (the code departs from it). When [got] is a NaN, or [expected]
    is, or [eps] is, [EqFloat] returns without a report: the difference
    is then not within [eps], and yet the test [> eps] is false. *)
Theorem EqFloat_NaN_passes `{B : runtime.Build} (callers : list runtime.Frame)
    (x eps : Go.float64) :
  smoothbraintest.EqFloat callers x S754_nan eps = runtime.ret tt /\
  smoothbraintest.EqFloat callers S754_nan x eps = runtime.ret tt /\
  smoothbraintest.EqFloat callers x x S754_nan = runtime.ret tt /\
  SFleb (math.Abs (SFsub 53 1024 x S754_nan)) eps = false /\
  smoothbraintest.EqFloat callers f64_1 S754_nan f64_1e_6 = runtime.ret tt.
Proof.
  unfold smoothbraintest.EqFloat. rewrite SFsub_nan_r. simpl.
  rewrite !SFltb_nan_r. repeat split.
Qed.

(** ** [SlicesMatchUnordered] *)

Section SlicesMatchUnordered.
Context `{B : runtime.Build} {T : Type} `{CT : Go.Comparable T}.
Variables expected got : list T.

(** The indexes of [js] are unused. *)
Let avoiding (used : gset nat) (js : list nat) : Prop :=
  forall j, j ∈ js -> j ∉ used.

Lemma matches_lt (e : T) (j : nat) : matches got e j -> (j < length got)%nat.
Proof. intros (g & Hg & _). now apply lookup_lt_Some in Hg. Qed.

(** *** The loop over [j] *)

Lemma find_unused_found (todo : list nat) (s : bool * gset nat)
    (body : nat -> bool * gset nat -> runtime.M (bool * gset nat)) :
  fst s = true ->
  runtime.for_ todo (fun s => negb (fst s)) body s = runtime.ret s.
Proof. intros Hs. destruct todo; simpl; [reflexivity |]. now rewrite Hs. Qed.

(** The body of the loop of [find_unused]. *)
Let jbody (i : nat) : nat -> bool * gset nat -> runtime.M (bool * gset nat) :=
  fun j s =>
    runtime.bind (runtime.index expected i) (fun e =>
    runtime.bind (runtime.index got j) (fun g =>
      if Go.go_eqb e g then
        if bool_decide (j ∈ snd s) then runtime.ret s
        else runtime.ret (true, {[j]} ∪ snd s)
      else runtime.ret s)).

Lemma find_unused_loop (i : nat) (e : T) (used : gset nat) (todo : list nat) :
  expected !! i = Some e ->
  (forall j, j ∈ todo -> (j < length got)%nat) ->
  (exists j, j ∈ todo /\ (j ∉ used) /\ matches got e j /\
     runtime.for_ todo (fun s => negb (fst s)) (jbody i) (false, used)
     = runtime.ret (true, {[j]} ∪ used)) \/
  ((forall j, j ∈ todo -> j ∉ used -> ~ (matches got e j)) /\
   runtime.for_ todo (fun s => negb (fst s)) (jbody i) (false, used)
   = runtime.ret (false, used)).
Proof.
  intros He. induction todo as [| j todo IH]; intros Hlt.
  - right. split; [| reflexivity]. intros j Hj. now apply elem_of_nil in Hj.
  - destruct (lookup_lt_is_Some_2 got j (Hlt j (list_elem_of_here _ _)))
      as [g Hg].
    assert (Hstep :
      runtime.for_ (j :: todo) (fun s => negb (fst s)) (jbody i) (false, used)
      = if Go.go_eqb e g then
          if bool_decide (j ∈ used)
          then runtime.for_ todo (fun s => negb (fst s)) (jbody i) (false, used)
          else runtime.ret (true, {[j]} ∪ used)
        else runtime.for_ todo (fun s => negb (fst s)) (jbody i) (false, used)).
    { simpl. unfold jbody at 1.
      rewrite (index_lookup _ _ _ He), bind_ret_l,
        (index_lookup _ _ _ Hg), bind_ret_l. simpl.
      destruct (Go.go_eqb e g); [case_bool_decide |]; rewrite bind_ret_l;
        try reflexivity.
      now apply find_unused_found. }
    rewrite Hstep. clear Hstep.
    assert (Hrest : forall j', j' ∈ todo -> (j' < length got)%nat)
      by (intros j' Hj'; apply Hlt; now right).
    destruct (Go.go_eqb e g) eqn:Heg; [case_bool_decide as Hused |].
    + destruct (IH Hrest) as [(j' & Hj' & H1 & H2 & ->) | [Hnone ->]].
      * left. exists j'. repeat split; try assumption. now right.
      * right. split; [| reflexivity]. intros j' Hj' Hfree.
        apply elem_of_cons in Hj' as [-> | Hj']; [contradiction | now apply Hnone].
    + left. exists j. repeat split; try assumption; [apply list_elem_of_here |].
      now exists g.
    + destruct (IH Hrest) as [(j' & Hj' & H1 & H2 & ->) | [Hnone ->]].
      * left. exists j'. repeat split; try assumption. now right.
      * right. split; [| reflexivity]. intros j' Hj' Hfree.
        apply elem_of_cons in Hj' as [-> | Hj']; [| now apply Hnone].
        intros (g' & Hg' & Heg'). congruence.
Qed.

Lemma find_unused_spec (i : nat) (e : T) (used : gset nat) :
  expected !! i = Some e ->
  (exists j, (j ∉ used) /\ matches got e j /\
     smoothbraintest.find_unused expected got i used
     = runtime.ret (true, {[j]} ∪ used)) \/
  ((forall j, j ∉ used -> ~ (matches got e j)) /\
   smoothbraintest.find_unused expected got i used = runtime.ret (false, used)).
Proof.
  intros He. unfold smoothbraintest.find_unused.
  destruct (find_unused_loop i e used (seq 0 (length got)) He)
    as [(j & Hj & H1 & H2 & Hloop) | [Hnone Hloop]].
  - intros j Hj. apply elem_of_seq in Hj. lia.
  - left. exists j. repeat split; assumption.
  - right. split; [| exact Hloop]. intros j Hfree Hm.
    apply (Hnone j); try assumption.
    apply elem_of_seq. pose proof (matches_lt e j Hm). lia.
Qed.

(** *** Pairings *)

(** A pairing that starts with another partner for [e] can give up the
    unused partner [j0]. *)
Lemma pairing_exchange `{!Go.ComparableLaws T} (e : T) (es : list T)
    (used : gset nat) (j0 : nat) :
  matches got e j0 -> j0 ∉ used ->
  (exists js, pairing (e :: es) got js /\ avoiding used js) ->
  exists js, pairing es got js /\ avoiding ({[j0]} ∪ used) js.
Proof.
  intros (g0 & Hg0 & He0) Hfree (js & [Hnd Hall] & Hav).
  destruct js as [| j js]; [inversion Hall |].
  apply Forall2_cons in Hall as [(g & Hg & Heg) Hall].
  apply NoDup_cons in Hnd as [Hj Hnd].
  destruct (decide (j0 ∈ js)) as [Hin | Hout].
  - exists ((fun x => if decide (x = j0) then j else x) <$> js).
    repeat split.
    + apply NoDup_fmap_2_strong; [| assumption].
      intros x y Hx Hy. repeat case_decide; congruence.
    + apply Forall2_fmap_r. eapply Forall2_impl; [exact Hall |].
      intros ek x (gk & Hgk & Hek). simpl. case_decide as Hx; [| now exists gk].
      subst x. exists g. split; [assumption |].
      assert (gk = g0) as -> by congruence.
      eapply Go.go_eqb_trans; [| exact Heg].
      eapply Go.go_eqb_trans; [exact Hek |]. now apply Go.go_eqb_sym.
    + intros x Hx. apply list_elem_of_fmap in Hx as (y & -> & Hy).
      assert (Hjj0 : j <> j0) by congruence.
      apply not_elem_of_union. rewrite not_elem_of_singleton.
      case_decide as Hy0.
      * split; [exact Hjj0 | apply Hav, list_elem_of_here].
      * split; [exact Hy0 | now apply Hav, list_elem_of_further].
  - exists js. repeat split; try assumption.
    intros x Hx. apply not_elem_of_union. rewrite not_elem_of_singleton.
    split; [congruence | now apply Hav, list_elem_of_further].
Qed.

(** *** The loop over [i] *)

(** The body of the loop of [account_for]. *)
Let ibody (f : string) (line : Z) : nat -> gset nat -> runtime.M (gset nat) :=
  fun i usedIndexes =>
    runtime.bind (smoothbraintest.find_unused expected got i usedIndexes) (fun s =>
    runtime.bind
      (if negb (fst s) then
         runtime.bind (runtime.index got i) (fun g =>
           smoothbraintest.FormatError (Go.box expected) (Go.box g)
             (fmt.Sprintf "Slice value was not accounted for | Index: %d"
                [fmt.Val (Go.box (Z.of_nat i))])
             f line)
       else runtime.ret tt)
      (fun _ => runtime.ret (snd s))).

Hypothesis same_length : length expected = length got.

(** From index [a] and the indexes [used] on, the loop either pairs
    every remaining element with an index of its own and returns the
    enlarged set, or halts with a report, and then no pairing of the
    remaining elements with unused indexes exists. *)
Lemma account_for_loop `{!Go.ComparableLaws T} (f : string) (line : Z)
    (n a : nat) (used : gset nat) :
  (a + n = length expected)%nat ->
  (exists js, pairing (drop a expected) got js /\ avoiding used js /\
     runtime.for_ (seq a n) (fun _ => true) (ibody f line) used
     = runtime.ret (list_to_set js ∪ used)) \/
  (~ (exists js, pairing (drop a expected) got js /\ avoiding used js) /\
   exists msg, runtime.for_ (seq a n) (fun _ => true) (ibody f line) used
               = testing.Fatal msg).
Proof.
  revert a used. induction n as [| n IH]; intros a used Han.
  - left. exists []. rewrite drop_ge by lia. repeat split.
    + constructor.
    + constructor.
    + intros j Hj. now apply elem_of_nil in Hj.
    + simpl. now rewrite (left_id_L ∅ (∪)).
  - destruct (lookup_lt_is_Some_2 expected a ltac:(lia)) as [e He].
    rewrite (drop_S _ _ _ He). simpl.
    destruct (find_unused_spec a e used He) as [(j & Hfree & Hm & Hfind) | [Hnone Hfind]].
    + assert (Hstep : ibody f line a used = runtime.ret ({[j]} ∪ used)).
      { unfold ibody. rewrite Hfind, bind_ret_l. simpl. now rewrite !bind_ret_l. }
      rewrite Hstep, bind_ret_l.
      destruct (IH (S a) ({[j]} ∪ used) ltac:(lia))
        as [(js & [Hnd Hall] & Hav & ->) | [Hno Hmsg]].
      * left. exists (j :: js). repeat split.
        -- apply NoDup_cons. split; [| assumption].
           intros Hj. apply (Hav j Hj). apply elem_of_union_l, elem_of_singleton.
           reflexivity.
        -- now apply Forall2_cons.
        -- intros x Hx. apply elem_of_cons in Hx as [-> | Hx]; [assumption |].
           intros Hu. apply (Hav x Hx). now apply elem_of_union_r.
        -- f_equal. apply set_eq. intros x.
           rewrite list_to_set_cons, !elem_of_union. tauto.
      * right. split; [| exact Hmsg].
        intros Hex. apply Hno. now apply (pairing_exchange e).
    + right. split.
      * intros (js & [Hnd Hall] & Hav).
        destruct js as [| j js]; [inversion Hall |].
        apply Forall2_cons in Hall as [Hm _].
        apply (Hnone j); [apply Hav, list_elem_of_here | exact Hm].
      * destruct (lookup_lt_is_Some_2 got a ltac:(lia)) as [g Hg].
        unfold ibody. rewrite Hfind, bind_ret_l. simpl.
        rewrite (index_lookup _ _ _ Hg), bind_ret_l.
        unfold smoothbraintest.FormatError. rewrite !bind_Fatal.
        eexists. reflexivity.
Qed.

(** With slices of one length, [SlicesMatchUnordered] either finds a
    pairing and returns, or halts with a report, and then no pairing
    exists. *)
Lemma SlicesMatchUnordered_same_length `{!Go.ComparableLaws T}
    (callers : list runtime.Frame) :
  (exists js, pairing expected got js /\
     smoothbraintest.account_for (fst (runtime.Caller 0 callers))
       (snd (runtime.Caller 0 callers)) expected got
     = runtime.ret (list_to_set js) /\
     smoothbraintest.SlicesMatchUnordered callers expected got = runtime.ret tt) \/
  (~ (exists js, pairing expected got js) /\
   exists msg,
     smoothbraintest.account_for (fst (runtime.Caller 0 callers))
       (snd (runtime.Caller 0 callers)) expected got
     = testing.Fatal msg /\
     smoothbraintest.SlicesMatchUnordered callers expected got
     = testing.Fatal msg).
Proof.
  unfold smoothbraintest.SlicesMatchUnordered. go_step.
  rewrite len_eqb, bool_decide_eq_true_2 by assumption. simpl. go_step.
  unfold smoothbraintest.account_for.
  destruct (account_for_loop (fst (runtime.Caller 0 callers))
              (snd (runtime.Caller 0 callers)) (length expected) 0 ∅ eq_refl)
    as [(js & Hp & _ & Hloop) | [Hno [msg Hloop]]].
  - left. exists js. rewrite drop_0 in Hp. split; [exact Hp |].
    unfold ibody in Hloop. rewrite Hloop, (right_id_L ∅ (∪)).
    split; [reflexivity |]. rewrite bind_ret_l.
    destruct Hp as [Hnd Hall].
    rewrite (size_list_to_set js Hnd), <- (Forall2_length _ _ _ Hall).
    unfold smoothbraintest.len. now rewrite Z.eqb_refl.
  - right. rewrite drop_0 in Hno. split.
    + intros (js & Hp). apply Hno. exists js. split; [exact Hp |].
      intros j _. apply not_elem_of_empty.
    + exists msg. unfold ibody in Hloop. now rewrite Hloop, bind_Fatal.
Qed.

End SlicesMatchUnordered.

Lemma SlicesMatchUnordered_lengths_differ `{B : runtime.Build} {T : Type}
    `{CT : Go.Comparable T} (callers : list runtime.Frame)
    (expected got : list T) :
  length expected <> length got ->
  smoothbraintest.SlicesMatchUnordered callers expected got
  = length_report callers expected got.
Proof.
  intros Hne. unfold smoothbraintest.SlicesMatchUnordered, length_report.
  go_step. rewrite len_eqb, bool_decide_eq_false_2 by assumption. simpl.
  now go_step.
Qed.

(** *** Pairings and permutations *)

Lemma omap_lookup_seq {A : Type} (l : list A) (n a : nat) :
  (a + n = length l)%nat -> omap (fun j => l !! j) (seq a n) = drop a l.
Proof.
  revert a. induction n as [| n IH]; intros a Han; simpl.
  - now rewrite drop_ge by lia.
  - destruct (lookup_lt_is_Some_2 l a ltac:(lia)) as [x Hx].
    rewrite Hx, (drop_S _ _ _ Hx). simpl. f_equal. apply IH. lia.
Qed.

Section Identity.
Context {T : Type} `{CT : Go.Comparable T}.
Hypothesis go_eqb_eq : forall x y : T, Go.go_eqb x y = true <-> x = y.

(** Where [==] is identity, a pairing exists between two slices of one
    length exactly when one is a permutation of the other. *)
Lemma pairing_Permutation (expected got : list T) :
  (length expected = length got /\ exists js, pairing expected got js) <->
  expected ≡ₚ got.
Proof.
  split.
  - intros (Hlen & js & Hnd & Hall).
    assert (Hjs : js ≡ₚ seq 0 (length got)).
    { apply submseteq_length_Permutation.
      - apply NoDup_submseteq; [assumption |]. intros j Hj.
        apply list_elem_of_lookup in Hj as [i Hi].
        destruct (Forall2_lookup_r _ _ _ _ _ Hall Hi) as (e & _ & g & Hg & _).
        apply elem_of_seq. apply lookup_lt_Some in Hg. lia.
      - rewrite length_seq, <- Hlen, (Forall2_length _ _ _ Hall). lia. }
    assert (Hexp : omap (fun j => got !! j) js = expected).
    { clear Hjs Hnd Hlen. induction Hall as [| e j es js (g & Hg & Heg) _ IH];
        [reflexivity |].
      simpl. rewrite Hg. simpl. apply go_eqb_eq in Heg as ->. f_equal. exact IH. }
    rewrite <- Hexp, Hjs, (omap_lookup_seq got (length got) 0 eq_refl).
    now rewrite drop_0.
  - intros Hperm. apply Permutation_inj in Hperm as (Hlen & f & Hinj & Hf).
    split; [exact Hlen |]. exists (f <$> seq 0 (length expected)). split.
    + apply NoDup_fmap; [exact Hinj | apply NoDup_seq].
    + apply Forall2_fmap_r, Forall2_same_length_lookup.
      split; [now rewrite length_seq |].
      intros i e j He Hj. apply lookup_seq in Hj as [-> _]. simpl.
      exists e. split; [now rewrite <- Hf | now apply go_eqb_eq].
Qed.

End Identity.

(** *** The laws of [==] on the basic types *)

#[global] Instance bool_ComparableLaws : Go.ComparableLaws bool.
Proof.
  split; simpl.
  - intros [] []; simpl; congruence.
  - intros [] [] []; simpl; congruence.
Qed.

#[global] Instance int_ComparableLaws : Go.ComparableLaws Z.
Proof.
  split; simpl; intros *; rewrite !Z.eqb_eq; congruence.
Qed.

#[global] Instance string_ComparableLaws : Go.ComparableLaws string.
Proof.
  split; simpl; intros *; rewrite !String.eqb_eq; congruence.
Qed.

Lemma SFeqb_true (x y : spec_float) :
  SFeqb x y = true ->
  (exists s s', x = S754_zero s /\ y = S754_zero s') \/ x = y.
Proof.
  unfold SFeqb.
  destruct x as [sx | sx | | sx mx ex], y as [sy | sy | | sy my ey]; simpl;
    try destruct sx; try destruct sy; simpl; try discriminate;
    try (intros _; right; reflexivity); try (intros _; left; eauto; fail).
  all: destruct (Z.compare ex ey) eqn:He; try discriminate;
    apply Z.compare_eq in He as ->;
    destruct (Pos.compare_cont Eq mx my) eqn:Hm; try discriminate;
    apply Pos.compare_eq in Hm as ->; intros _; now right.
Qed.

#[global] Instance float64_ComparableLaws : Go.ComparableLaws Go.float64.
Proof.
  split; simpl.
  - intros x y Hxy. unfold SFeqb in *. rewrite (SFcompare_antisym x y).
    now destruct (SFcompare x y) as [[] |].
  - intros x y z Hxy Hyz.
    destruct (SFeqb_true _ _ Hxy) as [(s & s' & -> & ->) | ->];
      [| assumption].
    destruct (SFeqb_true _ _ Hyz) as [(t & t' & _ & ->) | <-]; reflexivity.
Qed.

(** C1. [SlicesMatchUnordered] produces no failure report exactly when
    the slices have the same length and a one-to-one pairing of equal
    elements exists, and then it returns.  The indexes it has used at
    the end of its loop are the partners of such a pairing, each used
    once.  Where [==] is identity this is equality as multisets: one
    slice is a permutation of the other.
    [SlicesMatchUnordered([1,1,2], [1,2,1])] passes and
    [SlicesMatchUnordered([1,1,2], [1,2,2])] halts with a report. *)
Theorem SlicesMatchUnordered_spec `{B : runtime.Build}
    (callers : list runtime.Frame) :
  (forall (T : Type) (GT : Go.GoType T) (CT : Go.Comparable T)
          (Laws : Go.ComparableLaws T) (expected got : list T),
     (fst (smoothbraintest.SlicesMatchUnordered callers expected got) = [] <->
        length expected = length got /\ exists js, pairing expected got js) /\
     (fst (smoothbraintest.SlicesMatchUnordered callers expected got) = [] ->
        smoothbraintest.SlicesMatchUnordered callers expected got
        = runtime.ret tt) /\
     (fst (smoothbraintest.SlicesMatchUnordered callers expected got) <> [] ->
        exists msg, smoothbraintest.SlicesMatchUnordered callers expected got
                    = testing.Fatal msg) /\
     (length expected = length got ->
        forall usedIndexes,
          smoothbraintest.account_for (fst (runtime.Caller 0 callers))
            (snd (runtime.Caller 0 callers)) expected got
          = runtime.ret usedIndexes ->
          exists js, pairing expected got js /\ usedIndexes = list_to_set js) /\
     ((forall x y : T, Go.go_eqb x y = true <-> x = y) ->
        (fst (smoothbraintest.SlicesMatchUnordered callers expected got) = [] <->
           expected ≡ₚ got))) /\
  smoothbraintest.SlicesMatchUnordered callers [1; 1; 2] [1; 2; 1]
  = runtime.ret tt /\
  (exists msg, smoothbraintest.SlicesMatchUnordered callers [1; 1; 2] [1; 2; 2]
               = testing.Fatal msg).
Proof.
  assert (Hgen : forall (T : Type) (GT : Go.GoType T) (CT : Go.Comparable T)
            (Laws : Go.ComparableLaws T) (expected got : list T),
            (fst (smoothbraintest.SlicesMatchUnordered callers expected got) = [] <->
               length expected = length got /\ exists js, pairing expected got js) /\
            (fst (smoothbraintest.SlicesMatchUnordered callers expected got) = [] ->
               smoothbraintest.SlicesMatchUnordered callers expected got
               = runtime.ret tt) /\
            (fst (smoothbraintest.SlicesMatchUnordered callers expected got) <> [] ->
               exists msg, smoothbraintest.SlicesMatchUnordered callers expected got
                           = testing.Fatal msg)).
  { intros T GT CT Laws expected got.
    destruct (decide (length expected = length got)) as [Hlen | Hlen].
    - destruct (SlicesMatchUnordered_same_length expected got Hlen callers)
        as [(js & Hp & _ & ->) | (Hno & msg & _ & ->)]; simpl.
      + repeat split; try reflexivity; try assumption; [now exists js |].
        intros Hne. now contradiction Hne.
      + repeat split; try discriminate.
        * intros [_ Hex]. contradiction.
        * intros _. now exists msg.
    - rewrite (SlicesMatchUnordered_lengths_differ callers expected got Hlen).
      repeat split; try discriminate.
      + intros [Hlen' _]. contradiction.
      + intros _. eexists. reflexivity. }
  split; [| split].
  - intros T GT CT Laws expected got.
    destruct (Hgen T GT CT Laws expected got) as (Hiff & Hret & Hfatal).
    split; [exact Hiff |]. split; [exact Hret |]. split; [exact Hfatal |]. split.
    + intros Hlen usedIndexes Hused.
      destruct (SlicesMatchUnordered_same_length expected got Hlen callers)
        as [(js & Hp & Hacc & _) | (_ & msg & Hacc & _)];
        rewrite Hacc in Hused; [| discriminate].
      exists js. split; [exact Hp |]. now injection Hused as <-.
    + intros Hid. rewrite Hiff. now apply pairing_Permutation.
  - apply (Hgen Z _ _ _ [1; 1; 2] [1; 2; 1]).
    apply (Hgen Z _ _ _ [1; 1; 2] [1; 2; 1]). split; [reflexivity |].
    exists [0; 2; 1]%nat. split.
    + repeat constructor; rewrite ?elem_of_cons, ?elem_of_nil; lia.
    + repeat constructor; eexists; split; reflexivity.
  - apply (Hgen Z _ _ _ [1; 1; 2] [1; 2; 2]).
    intros Hsilent. apply (Hgen Z _ _ _ [1; 1; 2] [1; 2; 2]) in Hsilent
      as (_ & js & Hnd & Hall).
    destruct js as [| j0 [| j1 [| j2 [|]]]]; try (inversion Hall; fail).
    + inversion Hall as [| ? ? ? ? _ Hall1]; inversion Hall1.
    + inversion Hall as [| ? ? ? ? _ Hall1]; inversion Hall1 as [| ? ? ? ? _ Hall2];
        inversion Hall2.
    + apply Forall2_cons in Hall as [(g0 & Hg0 & He0) Hall].
      apply Forall2_cons in Hall as [(g1 & Hg1 & He1) _].
      apply NoDup_cons in Hnd as [Hj0 _].
      assert (j0 = 0%nat).
      { destruct j0 as [| [| [|]]]; simpl in Hg0; try discriminate;
          injection Hg0 as <-; try discriminate; reflexivity. }
      assert (j1 = 0%nat).
      { destruct j1 as [| [| [|]]]; simpl in Hg1; try discriminate;
          injection Hg1 as <-; try discriminate; reflexivity. }
      subst. apply Hj0. apply list_elem_of_here.
    + inversion Hall as [| ? ? ? ? _ Hall1]; inversion Hall1 as [| ? ? ? ? _ Hall2];
        inversion Hall2 as [| ? ? ? ? _ Hall3]; inversion Hall3.
Qed.

Lemma SlicesMatchUnordered_spec_witness :
  fst (smoothbraintest.SlicesMatchUnordered (B := example_build)
         example_callers [1; 1; 2] [1; 2; 1]) = [] <->
  length [1; 1; 2] = length [1; 2; 1] /\
  exists js, pairing [1; 1; 2] [1; 2; 1] js.
Proof.
  exact (proj1 (proj1 (SlicesMatchUnordered_spec (B := example_build)
                         example_callers) Z _ _ _ [1; 1; 2] [1; 2; 1])).
Defined.

(** ** [FormatError] and the position in the reports *)

(** The message that [FormatError] hands to [t.Fatal], in characters:
    the three lines of the documentation, with the file, the line, the
    description and the two operands under [%T] and [%v]. *)
Lemma FormatError_render `{VB : fmt.Verbs}
    (expected got : Go.any) (base : fmt.text) (file : string) (line : Z) :
  exists msg,
    smoothbraintest.FormatError expected got base file line = testing.Fatal msg /\
    fmt.render msg =
      "Error | File " +:+ fmt.verb "s" (Go.box file) +:+
      " Line " +:+ fmt.verb "d" (Go.box line) +:+
      " | " +:+ fmt.render base +:+ smoothbraintest.newline +:+
      "Expected: (" +:+ fmt.verb "T" expected +:+
      ") '" +:+ fmt.verb "v" expected +:+ "'" +:+ smoothbraintest.newline +:+
      "Got     : (" +:+ fmt.verb "T" got +:+
      ") '" +:+ fmt.verb "v" got +:+ "'".
Proof. eexists. split; reflexivity. Qed.

(** C8 (the code departs from it). The report of [Panics] on an action
    that returns carries the position of the end of [Panics] in
    [Test.go], and the report of [NoPanic] on an action that panics the
    position of [gopanic] in the runtime: in both, [runtime.Caller(1)] is
    called from the deferred closure, whose caller is not the test.  With
    the example build, a test that calls [Panics] at line 10 of
    [sample_test.go] is told line 62 of [Test.go]. *)
Theorem Panics_reports_own_position `{B : runtime.Build}
    (callers : list runtime.Frame) :
  smoothbraintest.Panics callers (runtime.ret tt)
  = smoothbraintest.FormatError (Go.box "panic") (Go.box "")
      (fmt.Lit "The supplied funciton did not panic when it should have.")
      runtime.Test_go 62 /\
  (forall p,
     smoothbraintest.NoPanic callers (runtime.panic p)
     = smoothbraintest.FormatError (Go.box "") (Go.box "panic")
         (fmt.Lit "The supplied funciton paniced when it shouldn't have.")
         runtime.panic_go runtime.gopanic_line) /\
  smoothbraintest.Panics (B := example_build) example_callers (runtime.ret tt)
  = smoothbraintest.FormatError (Go.box "panic") (Go.box "")
      (fmt.Lit "The supplied funciton did not panic when it should have.")
      "/go/pkg/mod/github.com/barbell-math/smoothbrain-test/Test.go" 62 /\
  runtime.Caller 0 example_callers = ("/work/sample_test.go", 10).
Proof. repeat split. Qed.

Lemma halts_at_ret {A : Type} (file : string) (line : Z) (a : A) :
  halts_at file line (runtime.ret a).
Proof. now left. Qed.

Lemma halts_at_FormatError (file : string) (line : Z)
    (expected got : Go.any) (base : fmt.text) :
  halts_at file line (smoothbraintest.FormatError expected got base file line).
Proof. right. now exists expected, got, base. Qed.

Lemma halts_at_try {A : Type} (file : string) (line : Z) (what : string)
    (o : option A) :
  halts_at file line (runtime.try what o).
Proof. left. now destruct o. Qed.

Lemma halts_at_bind {A C : Type} (file : string) (line : Z)
    (m : runtime.M A) (k : A -> runtime.M C) :
  halts_at file line m -> (forall a, halts_at file line (k a)) ->
  halts_at file line (runtime.bind m k).
Proof.
  intros [Hm | (e & g & base & ->)] Hk.
  - destruct m as [log [a | | p]]; simpl in Hm; subst log.
    + change (runtime.bind ([], runtime.Returned a) k)
        with (runtime.bind (runtime.ret a) k).
      rewrite bind_ret_l. apply Hk.
    + now left.
    + now left.
  - right. now exists e, g, base.
Qed.

Lemma halts_at_for_ {S : Type} (file : string) (line : Z) (todo : list nat)
    (cond : S -> bool) (body : nat -> S -> runtime.M S) (s : S) :
  (forall i s', halts_at file line (body i s')) ->
  halts_at file line (runtime.for_ todo cond body s).
Proof.
  intros Hbody. revert s. induction todo as [| i todo IH]; intros s; simpl.
  - apply halts_at_ret.
  - destruct (cond s); [| apply halts_at_ret].
    apply halts_at_bind; [apply Hbody | apply IH].
Qed.

Lemma halts_at_range {A : Type} (file : string) (line : Z) (xs : list A)
    (body : A -> runtime.M unit) :
  (forall x, halts_at file line (body x)) ->
  halts_at file line (runtime.range xs body).
Proof.
  intros Hbody. induction xs as [| x xs IH]; simpl.
  - apply halts_at_ret.
  - apply halts_at_bind; [apply Hbody | intros _; apply IH].
Qed.

(** One step in the proof that a function body reports at one position. *)
Ltac halts_step :=
  lazymatch goal with
  | |- halts_at _ _ (runtime.ret _) => apply halts_at_ret
  | |- halts_at _ _ (smoothbraintest.FormatError _ _ _ _ _) =>
      apply halts_at_FormatError
  | |- halts_at _ _ (runtime.try _ _) => apply halts_at_try
  | |- halts_at _ _ (runtime.index _ _) => apply halts_at_try
  | |- halts_at _ _ (runtime.bind _ _) => apply halts_at_bind; [| intros ?]
  | |- halts_at _ _ (runtime.for_ _ _ _ _) => apply halts_at_for_; intros ? ?
  | |- halts_at _ _ (runtime.range _ _) => apply halts_at_range; intros [? ?]
  | |- halts_at _ _ (if ?b then _ else _) => destruct b
  end.

Ltac halts :=
  unfold reports_at_caller; intros;
  rewrite ?Caller_1, ?pair_fst_snd; repeat halts_step.

Section Positions.
Context `{B : runtime.Build}.
Variable callers : list runtime.Frame.

Lemma ContainsError_at_caller (expected got : option errors.error) :
  reports_at_caller callers (smoothbraintest.ContainsError callers expected got).
Proof. unfold smoothbraintest.ContainsError. halts. Qed.

Lemma Eq_at_caller {T : Type} `{Go.Comparable T} (expected got : T) :
  reports_at_caller callers (smoothbraintest.Eq callers expected got).
Proof. unfold smoothbraintest.Eq. halts. Qed.

Lemma EqOneOf_at_caller {T : Type} `{Go.Comparable T} (expected : T)
    (data : list T) :
  reports_at_caller callers (smoothbraintest.EqOneOf callers expected data).
Proof. unfold smoothbraintest.EqOneOf. halts. Qed.

Lemma EqFloat_at_caller (expected got eps : Go.float64) :
  reports_at_caller callers (smoothbraintest.EqFloat callers expected got eps).
Proof. unfold smoothbraintest.EqFloat. halts. Qed.

Lemma EqFunc_at_caller {T : Type} `{Go.GoType T} (expected got : T)
    (cmp : T -> T -> runtime.M bool) :
  fst (cmp expected got) = [] ->
  reports_at_caller callers (smoothbraintest.EqFunc callers expected got cmp).
Proof.
  intros Hcmp. unfold smoothbraintest.EqFunc, reports_at_caller.
  apply halts_at_bind; [now left |]. halts.
Qed.

Lemma Neq_at_caller (expected got : Go.any) :
  reports_at_caller callers (smoothbraintest.Neq callers expected got).
Proof. unfold smoothbraintest.Neq. halts. Qed.

Lemma True_at_caller (v : bool) :
  reports_at_caller callers (smoothbraintest.True callers v).
Proof. unfold smoothbraintest.True. halts. Qed.

Lemma False_at_caller (v : bool) :
  reports_at_caller callers (smoothbraintest.False callers v).
Proof. unfold smoothbraintest.False. halts. Qed.

Lemma Nil_at_caller (v : Go.any) :
  reports_at_caller callers (smoothbraintest.Nil callers v).
Proof. unfold smoothbraintest.Nil. halts. Qed.

Lemma NotNil_at_caller (v : Go.any) :
  reports_at_caller callers (smoothbraintest.NotNil callers v).
Proof. unfold smoothbraintest.NotNil. cbv zeta. halts. Qed.

Lemma SlicesMatch_at_caller {T : Type} `{Go.Comparable T}
    (expected got : list T) :
  reports_at_caller callers (smoothbraintest.SlicesMatch callers expected got).
Proof. unfold smoothbraintest.SlicesMatch. halts. Qed.

Lemma SlicesMatchUnordered_at_caller {T : Type} `{Go.Comparable T}
    (expected got : list T) :
  reports_at_caller callers
    (smoothbraintest.SlicesMatchUnordered callers expected got).
Proof.
  unfold smoothbraintest.SlicesMatchUnordered, smoothbraintest.account_for,
    smoothbraintest.find_unused.
  halts.
Qed.

Lemma MapsMatch_at_caller {K V : Type} `{Countable K} `{Go.GoType K}
    `{Go.GoType V} (order : list (K * V)) (expected got : gmap K V) :
  reports_at_caller callers
    (smoothbraintest.MapsMatch callers order expected got).
Proof. unfold smoothbraintest.MapsMatch. halts. Qed.

End Positions.

(** Every assertion that calls [runtime.Caller(1)] in its own body hands
    [t.Fatal] nothing but messages of [FormatError] with the file and
    the line of its caller, the test. *)
Theorem assertions_report_at_caller `{B : runtime.Build}
    (callers : list runtime.Frame) :
  (forall expected got,
     reports_at_caller callers
       (smoothbraintest.ContainsError callers expected got)) /\
  (forall (T : Type) (GT : Go.GoType T) (CT : Go.Comparable T)
          (x y : T) (xs ys : list T),
     reports_at_caller callers (smoothbraintest.Eq callers x y) /\
     reports_at_caller callers (smoothbraintest.EqOneOf callers x xs) /\
     reports_at_caller callers (smoothbraintest.SlicesMatch callers xs ys) /\
     reports_at_caller callers
       (smoothbraintest.SlicesMatchUnordered callers xs ys)) /\
  (forall expected got eps,
     reports_at_caller callers
       (smoothbraintest.EqFloat callers expected got eps)) /\
  (forall v w : Go.any,
     reports_at_caller callers (smoothbraintest.Neq callers v w) /\
     reports_at_caller callers (smoothbraintest.Nil callers v) /\
     reports_at_caller callers (smoothbraintest.NotNil callers v)) /\
  (forall b : bool,
     reports_at_caller callers (smoothbraintest.True callers b) /\
     reports_at_caller callers (smoothbraintest.False callers b)) /\
  (forall (K : Type) (EK : EqDecision K) (CK : Countable K)
          (GK : Go.GoType K) (V : Type) (GV : Go.GoType V)
          (order : list (K * V)) (expected got : gmap K V),
     reports_at_caller callers
       (smoothbraintest.MapsMatch callers order expected got)).
Proof.
  repeat split; intros.
  - apply ContainsError_at_caller.
  - apply Eq_at_caller.
  - apply EqOneOf_at_caller.
  - apply SlicesMatch_at_caller.
  - apply SlicesMatchUnordered_at_caller.
  - apply EqFloat_at_caller.
  - apply Neq_at_caller.
  - apply Nil_at_caller.
  - apply NotNil_at_caller.
  - apply True_at_caller.
  - apply False_at_caller.
  - apply MapsMatch_at_caller.
Qed.

(** In the report of [MapsMatch] on two values that differ, the value
    of [got] stands on the line [Expected] and the value of [expected]
    on the line [Got]. *)
Lemma MapsMatch_value_report `{B : runtime.Build} (callers : list runtime.Frame) :
  smoothbraintest.MapsMatch callers [("a", 1)]
    ({["a" := 1]} : gmap string Z) {["a" := 2]}
  = smoothbraintest.FormatError (Go.box 2) (Go.box 1)
      (fmt.Lit "The values stored in the map did not match.")
      (fst (runtime.Caller 0 callers)) (snd (runtime.Caller 0 callers)).
Proof. rewrite MapsMatch_unfold. reflexivity. Qed.

(** ** The verdicts of [SlicesMatch] and [SlicesMatchUnordered] as relations *)

(** A relation that holds index by index still does after a reordering
    of the left list, for a reordering of the right one. *)
Lemma Forall2_Permutation_l {A C : Type} (R : A -> C -> Prop)
    (l l' : list A) (k : list C) :
  Forall2 R l k -> l ≡ₚ l' -> exists k', k ≡ₚ k' /\ Forall2 R l' k'.
Proof.
  intros Hall Hperm. revert k Hall.
  induction Hperm as [| x l l' _ IH | x y l | l l1 l' _ IH1 _ IH2]; intros k Hall.
  - exists k. split; [reflexivity | assumption].
  - destruct k as [| c k]; [inversion Hall |].
    apply Forall2_cons in Hall as [Hx Hall].
    destruct (IH k Hall) as (k' & Hk & Hall').
    exists (c :: k'). split; [now constructor | now constructor].
  - destruct k as [| c k]; [inversion Hall |].
    apply Forall2_cons in Hall as [Hy Hall].
    destruct k as [| d k]; [inversion Hall |].
    apply Forall2_cons in Hall as [Hx Hall].
    exists (d :: c :: k). split; [apply Permutation_swap | now repeat constructor].
  - destruct (IH1 k Hall) as (k1 & Hk1 & Hall1).
    destruct (IH2 k1 Hall1) as (k2 & Hk2 & Hall2).
    exists k2. split; [now transitivity k1 | assumption].
Qed.

Lemma Forall2_Permutation_r {A C : Type} (R : A -> C -> Prop)
    (l : list A) (k k' : list C) :
  Forall2 R l k -> k ≡ₚ k' -> exists l', l ≡ₚ l' /\ Forall2 R l' k'.
Proof.
  intros Hall Hperm. apply Forall2_flip in Hall.
  destruct (Forall2_Permutation_l _ _ _ _ Hall Hperm) as (l' & Hl & Hall').
  exists l'. split; [assumption | now apply Forall2_flip].
Qed.

Section Relations.
Context {T : Type} `{CT : Go.Comparable T}.

(** A pairing by indexes between slices of one length is a reordering
    of [got] that equals [expected] index by index. *)
Lemma pairing_unordered_equal (expected got : list T) :
  (length expected = length got /\ exists js, pairing expected got js) <->
  unordered_equal expected got.
Proof.
  split.
  - intros (Hlen & js & Hnd & Hall).
    exists (omap (fun j => got !! j) js). split.
    + assert (Hjs : js ≡ₚ seq 0 (length got)).
      { apply submseteq_length_Permutation.
        - apply NoDup_submseteq; [assumption |]. intros j Hj.
          apply list_elem_of_lookup in Hj as [i Hi].
          destruct (Forall2_lookup_r _ _ _ _ _ Hall Hi) as (e & _ & g & Hg & _).
          apply elem_of_seq. apply lookup_lt_Some in Hg. lia.
        - rewrite length_seq, <- Hlen, (Forall2_length _ _ _ Hall). lia. }
      rewrite Hjs, (omap_lookup_seq got (length got) 0 eq_refl).
      now rewrite drop_0.
    + clear Hnd Hlen. unfold pairwise_equal.
      induction Hall as [| e j es js (g & Hg & Heg) _ IH]; [constructor |].
      simpl. rewrite Hg. simpl. now constructor.
  - intros (got' & Hperm & Hall).
    pose proof (Forall2_length _ _ _ Hall) as Hlen'.
    apply Permutation_inj in Hperm as (Hlen & f & Hinj & Hf).
    split; [congruence |]. exists (f <$> seq 0 (length expected)). split.
    + apply NoDup_fmap; [exact Hinj | apply NoDup_seq].
    + apply Forall2_fmap_r, Forall2_same_length_lookup.
      split; [now rewrite length_seq |].
      intros i e j He Hj. apply lookup_seq in Hj as [-> _]. simpl.
      destruct (Forall2_lookup_l _ _ _ _ _ Hall He) as (g & Hg & Heg).
      exists g. split; [now rewrite <- Hf | assumption].
Qed.

Lemma pairwise_unordered_equal (expected got : list T) :
  pairwise_equal expected got -> unordered_equal expected got.
Proof. intros Hall. exists got. split; [reflexivity | assumption]. Qed.

Lemma unordered_equal_Permutation (a a' b b' : list T) :
  a ≡ₚ a' -> b ≡ₚ b' -> unordered_equal a b -> unordered_equal a' b'.
Proof.
  intros Ha Hb (g & Hg & Hall).
  destruct (Forall2_Permutation_l _ _ _ _ Hall Ha) as (g' & Hg' & Hall').
  exists g'. split; [| assumption].
  now rewrite <- Hg', Hg.
Qed.

Context `{!Go.ComparableLaws T}.

Lemma unordered_equal_sym (a b : list T) :
  unordered_equal a b -> unordered_equal b a.
Proof.
  intros (g & Hg & Hall).
  destruct (Forall2_Permutation_r _ _ _ _ Hall Hg) as (a' & Ha & Hall').
  exists a'. split; [now symmetry |].
  apply Forall2_flip. eapply Forall2_impl; [exact Hall' |].
  intros x y. apply Go.go_eqb_sym.
Qed.

Lemma unordered_equal_trans (a b c : list T) :
  unordered_equal a b -> unordered_equal b c -> unordered_equal a c.
Proof.
  intros (b' & Hb & Hab) (c' & Hc & Hbc).
  destruct (Forall2_Permutation_l _ _ _ _ Hbc (Permutation_sym Hb))
    as (c'' & Hc' & Hbc').
  exists c''. split; [now rewrite <- Hc', Hc |].
  eapply Forall2_trans; [| exact Hab | exact Hbc'].
  intros x y z. apply Go.go_eqb_trans.
Qed.

End Relations.

Lemma Forall2_diag_iff {A : Type} (Q : A -> A -> Prop) (l : list A) :
  Forall2 Q l l <-> Forall (fun x => Q x x) l.
Proof.
  split; [| apply Forall_Forall2_diag].
  intros Hall. apply Forall_lookup. intros i x Hi.
  now apply (Forall2_lookup_lr _ _ _ _ _ _ Hall Hi Hi).
Qed.

Lemma SlicesMatch_silent_iff `{B : runtime.Build} {T : Type}
    `{CT : Go.Comparable T} (callers : list runtime.Frame)
    (expected got : list T) :
  fst (smoothbraintest.SlicesMatch callers expected got) = [] <->
  length expected = length got /\ pairwise_equal expected got.
Proof.
  rewrite SlicesMatch_unfold. case_bool_decide as Hl.
  - rewrite (loop_silent callers expected got Hl (length expected) 0 eq_refl).
    unfold pairwise_equal. rewrite Forall2_same_length_lookup. split.
    + intros Hall. split; [assumption |]. split; [assumption |].
      intros i e g. apply Hall. lia.
    + intros (_ & _ & Hall) j e g _. apply Hall.
  - split; [discriminate | intros [Hl' _]; contradiction].
Qed.

Lemma SlicesMatchUnordered_silent_iff `{B : runtime.Build} {T : Type}
    `{CT : Go.Comparable T} `{!Go.ComparableLaws T}
    (callers : list runtime.Frame) (expected got : list T) :
  fst (smoothbraintest.SlicesMatchUnordered callers expected got) = [] <->
  unordered_equal expected got.
Proof.
  rewrite <- pairing_unordered_equal.
  destruct (decide (length expected = length got)) as [Hlen | Hlen].
  - destruct (SlicesMatchUnordered_same_length expected got Hlen callers)
      as [(js & Hp & _ & ->) | (Hno & msg & _ & ->)]; simpl.
    + split; [intros _; split; [assumption | now exists js] | reflexivity].
    + split; [discriminate | intros [_ Hex]; contradiction].
  - rewrite (SlicesMatchUnordered_lengths_differ callers expected got Hlen).
    split; [discriminate | intros [Hlen' _]; contradiction].
Qed.

(** Whether [SlicesMatchUnordered] passes does not depend on the order
    of either slice nor on which slice is given as expected, and passing
    is transitive; what [SlicesMatch] passes, [SlicesMatchUnordered]
    passes; a slice matches itself exactly when each of its elements is
    equal to itself (a NaN is not). *)
Theorem SlicesMatchUnordered_equivalence `{B : runtime.Build}
    (cs1 cs2 cs3 : list runtime.Frame)
    (T : Type) (GT : Go.GoType T) (CT : Go.Comparable T)
    (Laws : Go.ComparableLaws T) (a b c a' b' : list T) :
  (fst (smoothbraintest.SlicesMatchUnordered cs1 a b) = [] <->
     fst (smoothbraintest.SlicesMatchUnordered cs2 b a) = []) /\
  (fst (smoothbraintest.SlicesMatchUnordered cs1 a b) = [] ->
   fst (smoothbraintest.SlicesMatchUnordered cs2 b c) = [] ->
   fst (smoothbraintest.SlicesMatchUnordered cs3 a c) = []) /\
  (a ≡ₚ a' -> b ≡ₚ b' ->
   (fst (smoothbraintest.SlicesMatchUnordered cs1 a b) = [] <->
      fst (smoothbraintest.SlicesMatchUnordered cs2 a' b') = [])) /\
  (fst (smoothbraintest.SlicesMatch cs1 a b) = [] ->
   fst (smoothbraintest.SlicesMatchUnordered cs2 a b) = []) /\
  (fst (smoothbraintest.SlicesMatchUnordered cs1 a a) = [] <->
     Forall (fun x => Go.go_eqb x x = true) a).
Proof.
  rewrite !SlicesMatchUnordered_silent_iff, SlicesMatch_silent_iff.
  split; [| split; [| split; [| split]]].
  - split; apply unordered_equal_sym.
  - apply unordered_equal_trans.
  - intros Ha Hb. split; apply unordered_equal_Permutation;
      assumption || (symmetry; assumption).
  - intros [_ Hall]. now apply pairwise_unordered_equal.
  - split.
    + intros (g & Hg & Hall). apply Forall_forall. intros x Hx.
      apply list_elem_of_lookup in Hx as [i Hi].
      destruct (Forall2_lookup_l _ _ _ _ _ Hall Hi) as (y & _ & Hxy).
      eapply Go.go_eqb_trans; [exact Hxy |]. now apply Go.go_eqb_sym.
    + intros Hall. apply pairwise_unordered_equal.
      now apply Forall_Forall2_diag.
Qed.

Lemma SlicesMatchUnordered_equivalence_witness :
  [1; 2; 2] ≡ₚ [2; 1; 2] /\ [3; 4; 4] ≡ₚ [4; 4; 3] /\
  (fst (smoothbraintest.SlicesMatchUnordered (B := example_build)
          example_callers [1; 2; 2] [3; 4; 4]) = [] <->
   fst (smoothbraintest.SlicesMatchUnordered (B := example_build)
          example_callers [2; 1; 2] [4; 4; 3]) = []).
Proof.
  assert (Ha : [1; 2; 2] ≡ₚ [2; 1; 2]) by apply Permutation_swap.
  assert (Hb : [3; 4; 4] ≡ₚ [4; 4; 3]).
  { change [4; 4; 3] with ([4; 4] ++ [3]). apply (Permutation_app_comm [3]). }
  split; [exact Ha |]. split; [exact Hb |].
  exact (proj1 (proj2 (proj2 (SlicesMatchUnordered_equivalence
           (B := example_build) example_callers example_callers example_callers
           Z _ _ _ [1; 2; 2] [3; 4; 4] [] [2; 1; 2] [4; 4; 3]))) Ha Hb).
Defined.

(** [SlicesMatch] passes in both directions or in neither, passing is
    transitive, a slice matches itself exactly when each element is
    equal to itself, and where [==] is identity [SlicesMatch] passes
    exactly on two equal slices. *)
Theorem SlicesMatch_equivalence `{B : runtime.Build}
    (cs1 cs2 cs3 : list runtime.Frame)
    (T : Type) (GT : Go.GoType T) (CT : Go.Comparable T)
    (Laws : Go.ComparableLaws T) (a b c : list T) :
  (fst (smoothbraintest.SlicesMatch cs1 a b) = [] <->
     fst (smoothbraintest.SlicesMatch cs2 b a) = []) /\
  (fst (smoothbraintest.SlicesMatch cs1 a b) = [] ->
   fst (smoothbraintest.SlicesMatch cs2 b c) = [] ->
   fst (smoothbraintest.SlicesMatch cs3 a c) = []) /\
  (fst (smoothbraintest.SlicesMatch cs1 a a) = [] <->
     Forall (fun x => Go.go_eqb x x = true) a) /\
  ((forall x y : T, Go.go_eqb x y = true <-> x = y) ->
   (fst (smoothbraintest.SlicesMatch cs1 a b) = [] <-> a = b)).
Proof.
  rewrite !SlicesMatch_silent_iff. unfold pairwise_equal.
  assert (Hsym : forall l k : list T,
            Forall2 (fun e g => Go.go_eqb e g = true) l k ->
            Forall2 (fun e g => Go.go_eqb e g = true) k l).
  { intros l k Hall. apply Forall2_flip. eapply Forall2_impl; [exact Hall |].
    intros x y. apply Go.go_eqb_sym. }
  split; [| split; [| split]].
  - split; intros [Hl Hall]; (split; [congruence | now apply Hsym]).
  - intros [Hab Fab] [Hbc Fbc]. split; [congruence |].
    eapply Forall2_trans; [| exact Fab | exact Fbc].
    intros x y z. apply Go.go_eqb_trans.
  - rewrite Forall2_diag_iff. tauto.
  - intros Hid. split.
    + intros [_ Hall]. induction Hall as [| x y l k Hxy _ IH]; [reflexivity |].
      apply Hid in Hxy as ->. now rewrite IH.
    + intros ->. split; [reflexivity |]. apply Forall_Forall2_diag, Forall_forall.
      intros x _. now apply Hid.
Qed.

Lemma SlicesMatch_equivalence_witness :
  fst (smoothbraintest.SlicesMatch (B := example_build) example_callers
         ["a"; "b"] ["a"; "c"]) = [] <->
  fst (smoothbraintest.SlicesMatch (B := example_build) example_callers
         ["a"; "c"] ["a"; "b"]) = [].
Proof.
  exact (proj1 (SlicesMatch_equivalence (B := example_build)
           example_callers example_callers example_callers
           string _ _ _ ["a"; "b"] ["a"; "c"] [])).
Defined.

(** ** More on [EqFloat] *)

Lemma SFabs_binary_round_aux (s s' : bool) (m e : Z) (l : location) :
  SFabs (binary_round_aux 53 1024 s m e l)
  = SFabs (binary_round_aux 53 1024 s' m e l).
Proof.
  unfold binary_round_aux.
  destruct (shr_fexp 53 1024 m e l) as [mrs1 e1].
  destruct (shr_fexp 53 1024 _ e1 loc_Exact) as [mrs2 e2].
  destruct (shr_m mrs2); [reflexivity | | reflexivity].
  now destruct (Z.leb e2 (1024 - 53)).
Qed.

Lemma SFabs_binary_normalize_opp (m e : Z) :
  SFabs (binary_normalize 53 1024 (- m) e false)
  = SFabs (binary_normalize 53 1024 m e false).
Proof.
  destruct m as [| p | p]; simpl; [reflexivity | |];
    unfold binary_round;
    destruct (shl_align p e _) as [mz ez]; apply SFabs_binary_round_aux.
Qed.

(** The distance does not depend on the order of the operands. *)
Lemma SFabs_SFsub_comm (x y : spec_float) :
  SFabs (SFsub 53 1024 x y) = SFabs (SFsub 53 1024 y x).
Proof.
  destruct x as [sx | sx | | sx mx ex], y as [sy | sy | | sy my ey];
    try destruct sx; try destruct sy; try reflexivity.
  all: unfold SFsub; rewrite (Z.min_comm ey ex);
    rewrite <- SFabs_binary_normalize_opp; f_equal; f_equal; simpl; lia.
Qed.

Lemma SFsub_diag (x : spec_float) :
  is_number x = true -> SFsub 53 1024 x x = S754_zero false.
Proof.
  destruct x as [s | s | | s m e]; try discriminate; intros _.
  - now destruct s.
  - unfold SFsub. now rewrite Z.sub_diag.
Qed.

Lemma SFeqb_refl (x : spec_float) : x <> S754_nan -> SFeqb x x = true.
Proof.
  unfold SFeqb. destruct x as [s | s | | s m e]; simpl; try congruence;
    destruct s; try reflexivity; intros _;
    rewrite Z.compare_refl, Pos.compare_cont_refl; reflexivity.
Qed.

(** [x <= y] and [y < z] give [x < z]. *)
Lemma SFleb_SFltb_trans (x y z : spec_float) :
  SFleb x y = true -> SFltb y z = true -> SFltb x z = true.
Proof.
  unfold SFleb, SFltb.
  destruct x as [sx | sx | | sx mx ex], y as [sy | sy | | sy my ey],
    z as [sz | sz | | sz mz ez]; simpl;
    try destruct sx; try destruct sy; try destruct sz; simpl;
    try discriminate; try reflexivity.
  all: rewrite ?Pos.compare_cont_spec; simpl;
    repeat match goal with
    | |- context [Z.compare ?a ?b] => destruct (Z.compare_spec a b)
    | |- context [Pos.compare ?a ?b] => destruct (Pos.compare_spec a b)
    end; simpl; try discriminate; try reflexivity; intros; exfalso; lia.
Qed.

Lemma EqFloat_silent_iff `{B : runtime.Build} (callers : list runtime.Frame)
    (expected got eps : Go.float64) :
  fst (smoothbraintest.EqFloat callers expected got eps) = [] <->
  SFltb eps (math.Abs (SFsub 53 1024 expected got)) = false.
Proof.
  unfold smoothbraintest.EqFloat.
  destruct (SFltb eps _); go_step; [| tauto]. split; discriminate.
Qed.

(** [EqFloat] gives one verdict whichever of the two floats is passed
    as expected. *)
Theorem EqFloat_symmetric `{B : runtime.Build} (cs1 cs2 : list runtime.Frame)
    (x y eps : Go.float64) :
  fst (smoothbraintest.EqFloat cs1 x y eps) = [] <->
  fst (smoothbraintest.EqFloat cs2 y x eps) = [].
Proof.
  rewrite !EqFloat_silent_iff. unfold math.Abs.
  now rewrite (SFabs_SFsub_comm x y).
Qed.

(** A call of [EqFloat] that passes still passes with a larger [eps]. *)
Theorem EqFloat_monotone `{B : runtime.Build} (cs1 cs2 : list runtime.Frame)
    (x y eps eps' : Go.float64) :
  SFleb eps eps' = true ->
  fst (smoothbraintest.EqFloat cs1 x y eps) = [] ->
  fst (smoothbraintest.EqFloat cs2 x y eps') = [].
Proof.
  rewrite !EqFloat_silent_iff. intros Hle Hpass.
  destruct (SFltb eps' _) eqn:Hlt; [| reflexivity].
  now rewrite (SFleb_SFltb_trans _ _ _ Hle Hlt) in Hpass.
Qed.

Lemma EqFloat_monotone_witness :
  SFleb f64_1e_6 f64_1 = true /\
  fst (smoothbraintest.EqFloat (B := example_build) example_callers
         f64_1 f64_1_plus_1e_9 f64_1e_6) = [] /\
  fst (smoothbraintest.EqFloat (B := example_build) example_callers
         f64_1 f64_1_plus_1e_9 f64_1) = [].
Proof.
  assert (Hle : SFleb f64_1e_6 f64_1 = true) by reflexivity.
  assert (Hpass : fst (smoothbraintest.EqFloat (B := example_build)
                         example_callers f64_1 f64_1_plus_1e_9 f64_1e_6) = [])
    by reflexivity.
  split; [exact Hle |]. split; [exact Hpass |].
  exact (EqFloat_monotone (B := example_build) example_callers example_callers
           f64_1 f64_1_plus_1e_9 f64_1e_6 f64_1 Hle Hpass).
Defined.

(** Two floats that [Eq] accepts, [EqFloat] accepts with every [eps]
    that is not negative; with a negative [eps] it reports even a number
    compared with itself. *)
Theorem EqFloat_equal_operands `{B : runtime.Build}
    (cs1 cs2 : list runtime.Frame) (x y eps : Go.float64) :
  (fst (smoothbraintest.Eq cs1 x y) = [] ->
   SFltb eps (S754_zero false) = false ->
   smoothbraintest.EqFloat cs2 x y eps = runtime.ret tt) /\
  (SFltb eps (S754_zero false) = true -> is_number x = true ->
   fst (smoothbraintest.EqFloat cs2 x x eps) <> []).
Proof.
  split.
  - intros Heq Heps.
    assert (Hxy : SFeqb x y = true).
    { unfold smoothbraintest.Eq in Heq. simpl in Heq.
      destruct (SFeqb x y); [reflexivity |]. revert Heq. go_step. discriminate. }
    assert (Hpass : SFltb eps (math.Abs (SFsub 53 1024 x y)) = false).
    { destruct (SFeqb_true _ _ Hxy) as [(s & s' & -> & ->) | <-].
      - destruct s, s'; exact Heps.
      - destruct x as [s | s | | s m e].
        + destruct s; exact Heps.
        + destruct s; apply SFltb_nan_r.
        + apply SFltb_nan_r.
        + now rewrite SFsub_diag. }
    unfold smoothbraintest.EqFloat. now rewrite Hpass.
  - intros Heps Hx. rewrite EqFloat_silent_iff, (SFsub_diag x Hx). simpl.
    congruence.
Qed.

Lemma EqFloat_equal_operands_witness :
  fst (smoothbraintest.Eq (B := example_build) example_callers f64_1 f64_1) = [] /\
  SFltb f64_1e_6 (S754_zero false) = false /\
  smoothbraintest.EqFloat (B := example_build) example_callers
    f64_1 f64_1 f64_1e_6 = runtime.ret tt.
Proof.
  assert (Heq : fst (smoothbraintest.Eq (B := example_build) example_callers
                       f64_1 f64_1) = []) by reflexivity.
  assert (Heps : SFltb f64_1e_6 (S754_zero false) = false) by reflexivity.
  split; [exact Heq |]. split; [exact Heps |].
  exact (proj1 (EqFloat_equal_operands (B := example_build)
                  example_callers example_callers f64_1 f64_1 f64_1e_6)
           Heq Heps).
Defined.

(** ** [Eq], [Neq], [EqOneOf], [EqFunc], [True] and [False] *)

Section Equality.
Context `{B : runtime.Build}.
Variable callers : list runtime.Frame.

(** The report of [Eq], at the position of the caller. *)
Lemma Eq_unfold {T : Type} `{Go.Comparable T} (expected got : T) :
  smoothbraintest.Eq callers expected got =
    if Go.go_eqb expected got then runtime.ret tt
    else smoothbraintest.FormatError (Go.box expected) (Go.box got)
           (fmt.Lit "The supplied values were not equal but were expected to be.")
           (fst (runtime.Caller 0 callers)) (snd (runtime.Caller 0 callers)).
Proof.
  unfold smoothbraintest.Eq. destruct (Go.go_eqb expected got); simpl;
    now go_step.
Qed.

Lemma Eq_silent_iff {T : Type} `{Go.Comparable T} (expected got : T) :
  fst (smoothbraintest.Eq callers expected got) = [] <->
  Go.go_eqb expected got = true.
Proof.
  rewrite Eq_unfold. destruct (Go.go_eqb expected got); [tauto |].
  split; discriminate.
Qed.

Lemma Neq_unfold (expected got : Go.any) :
  smoothbraintest.Neq callers expected got =
    match Go.iface_eq expected got with
    | Some true =>
        smoothbraintest.FormatError expected got
          (fmt.Lit "The supplied values were equal but were expected to not be.")
          (fst (runtime.Caller 0 callers)) (snd (runtime.Caller 0 callers))
    | Some false => runtime.ret tt
    | None => runtime.panic (runtime.Error "comparing uncomparable type")
    end.
Proof.
  unfold smoothbraintest.Neq. destruct (Go.iface_eq expected got) as [[] |];
    simpl; now go_step.
Qed.

Lemma EqOneOf_unfold {T : Type} `{Go.Comparable T} (expected : T)
    (data : list T) :
  smoothbraintest.EqOneOf callers expected data =
    if existsb (fun rVal => Go.go_eqb expected rVal) data then runtime.ret tt
    else smoothbraintest.FormatError (Go.box expected) (Go.box data)
           (fmt.Lit "The supplied value is not in the supplied slice.")
           (fst (runtime.Caller 0 callers)) (snd (runtime.Caller 0 callers)).
Proof.
  unfold smoothbraintest.EqOneOf. destruct (existsb _ data); now go_step.
Qed.

Lemma EqOneOf_silent_iff {T : Type} `{Go.Comparable T} (expected : T)
    (data : list T) :
  fst (smoothbraintest.EqOneOf callers expected data) = [] <->
  existsb (fun rVal => Go.go_eqb expected rVal) data = true.
Proof.
  rewrite EqOneOf_unfold. destruct (existsb _ data); [tauto |].
  split; discriminate.
Qed.

End Equality.

(** On the basic types, [Neq] on the two values converted to [any]
    produces a failure report exactly when [Eq] on the values produces
    none, and neither panics. *)
Theorem Eq_Neq_complement `{B : runtime.Build} (cs1 cs2 : list runtime.Frame)
    (T : Type) (GT : Go.GoType T) (CT : Go.Comparable T) (BE : BoxedEq T)
    (x y : T) :
  (fst (smoothbraintest.Neq cs2 (Go.box x) (Go.box y)) <> [] <->
     fst (smoothbraintest.Eq cs1 x y) = []) /\
  (fst (smoothbraintest.Eq cs1 x y) <> [] <->
     fst (smoothbraintest.Neq cs2 (Go.box x) (Go.box y)) = []) /\
  runtime.panicked (smoothbraintest.Eq cs1 x y) = false /\
  runtime.panicked (smoothbraintest.Neq cs2 (Go.box x) (Go.box y)) = false.
Proof.
  rewrite Eq_unfold, Neq_unfold, iface_eq_box.
  destruct (Go.go_eqb x y); simpl; repeat split; intros; congruence.
Qed.

Lemma Eq_Neq_complement_witness :
  fst (smoothbraintest.Neq (B := example_build) example_callers
         (Go.box "a") (Go.box "b")) <> [] <->
  fst (smoothbraintest.Eq (B := example_build) example_callers "a" "b") = [].
Proof.
  exact (proj1 (Eq_Neq_complement (B := example_build) example_callers
                  example_callers string _ _ _ "a" "b")).
Defined.

(** [Eq] returns without a report when [expected == got], and otherwise
    halts with one report that carries the two values and the caller's
    position.  On integers, strings and booleans it passes exactly on
    equal operands; on floats a value passes against itself exactly when
    it is not a NaN, and the two zeros pass against each other. *)
Theorem Eq_spec `{B : runtime.Build} (callers : list runtime.Frame) :
  (forall (T : Type) (GT : Go.GoType T) (CT : Go.Comparable T) (x y : T),
     (Go.go_eqb x y = true ->
        smoothbraintest.Eq callers x y = runtime.ret tt) /\
     (Go.go_eqb x y = false ->
        smoothbraintest.Eq callers x y
        = smoothbraintest.FormatError (Go.box x) (Go.box y)
            (fmt.Lit "The supplied values were not equal but were expected to be.")
            (fst (runtime.Caller 0 callers)) (snd (runtime.Caller 0 callers)))) /\
  (forall x y : Z, fst (smoothbraintest.Eq callers x y) = [] <-> x = y) /\
  (forall x y : string, fst (smoothbraintest.Eq callers x y) = [] <-> x = y) /\
  (forall x y : bool, fst (smoothbraintest.Eq callers x y) = [] <-> x = y) /\
  (forall f : Go.float64,
     fst (smoothbraintest.Eq callers f f) = [] <-> f <> S754_nan) /\
  (forall s s' : bool,
     smoothbraintest.Eq callers (S754_zero s) (S754_zero s') = runtime.ret tt).
Proof.
  split; [| split; [| split; [| split; [| split]]]].
  - intros T GT CT x y. rewrite Eq_unfold. split; now intros ->.
  - intros x y. rewrite Eq_silent_iff. apply Z.eqb_eq.
  - intros x y. rewrite Eq_silent_iff. apply String.eqb_eq.
  - intros x y. rewrite Eq_silent_iff. simpl. now destruct x, y.
  - intros f. rewrite Eq_silent_iff. simpl. split.
    + intros Hf ->. discriminate.
    + apply SFeqb_refl.
  - intros s s'. now rewrite Eq_unfold.
Qed.

(** [Neq] compares its operands as interface values: two nil
    interfaces are reported; a nil one and a value pass; values of two
    types pass whatever they hold; values of one type that is not
    comparable (slices, maps, functions) end the call in a run-time panic
    without a report. *)
Theorem Neq_outcomes `{B : runtime.Build} (callers : list runtime.Frame) :
  fst (smoothbraintest.Neq callers None None) <> [] /\
  (forall x : Go.value,
     smoothbraintest.Neq callers None (Some x) = runtime.ret tt /\
     smoothbraintest.Neq callers (Some x) None = runtime.ret tt) /\
  (forall x y : Go.value,
     Go.type_eqb (Go.type_of x) (Go.type_of y) = false ->
     smoothbraintest.Neq callers (Some x) (Some y) = runtime.ret tt) /\
  (forall x y : Go.value,
     Go.type_eqb (Go.type_of x) (Go.type_of y) = true ->
     Go.comparable (Go.type_of x) = false ->
     smoothbraintest.Neq callers (Some x) (Some y)
     = runtime.panic (runtime.Error "comparing uncomparable type")) /\
  (forall (T : Type) (GT : Go.GoType T) (xs ys : list T),
     smoothbraintest.Neq callers (Go.box xs) (Go.box ys)
     = runtime.panic (runtime.Error "comparing uncomparable type")).
Proof.
  split; [| split; [| split; [| split]]].
  - rewrite Neq_unfold. discriminate.
  - intros x. now rewrite !Neq_unfold.
  - intros x y Hty. rewrite Neq_unfold. unfold Go.iface_eq. simpl.
    now rewrite Hty.
  - intros x y Hty Hc. rewrite Neq_unfold. unfold Go.iface_eq. simpl.
    now rewrite Hty, Hc.
  - intros T GT xs ys. now rewrite Neq_unfold, iface_eq_slices.
Qed.

(** [EqOneOf] produces no failure report exactly when an element of the
    slice is equal to the expected value; so it always reports on an
    empty slice, agrees with [Eq] on a slice of one element, and passes
    on two slices put end to end exactly when it passes on one of them.
    Its report carries the value and the whole slice. *)
Theorem EqOneOf_spec `{B : runtime.Build} (cs1 cs2 : list runtime.Frame)
    (T : Type) (GT : Go.GoType T) (CT : Go.Comparable T)
    (expected y : T) (data data' : list T) :
  (fst (smoothbraintest.EqOneOf cs1 expected data) = [] <->
     exists rVal, rVal ∈ data /\ Go.go_eqb expected rVal = true) /\
  (fst (smoothbraintest.EqOneOf cs1 expected data) = [] ->
     smoothbraintest.EqOneOf cs1 expected data = runtime.ret tt) /\
  (fst (smoothbraintest.EqOneOf cs1 expected data) <> [] ->
     smoothbraintest.EqOneOf cs1 expected data
     = smoothbraintest.FormatError (Go.box expected) (Go.box data)
         (fmt.Lit "The supplied value is not in the supplied slice.")
         (fst (runtime.Caller 0 cs1)) (snd (runtime.Caller 0 cs1))) /\
  fst (smoothbraintest.EqOneOf cs1 expected []) <> [] /\
  (fst (smoothbraintest.EqOneOf cs1 expected [y]) = [] <->
     fst (smoothbraintest.Eq cs2 expected y) = []) /\
  (fst (smoothbraintest.EqOneOf cs1 expected (data ++ data')) = [] <->
     fst (smoothbraintest.EqOneOf cs1 expected data) = [] \/
     fst (smoothbraintest.EqOneOf cs1 expected data') = []) /\
  ((forall a b : T, Go.go_eqb a b = true <-> a = b) ->
   (fst (smoothbraintest.EqOneOf cs1 expected data) = [] <-> expected ∈ data)).
Proof.
  assert (Hex : forall l : list T,
            existsb (fun rVal => Go.go_eqb expected rVal) l = true <->
            exists rVal, rVal ∈ l /\ Go.go_eqb expected rVal = true).
  { intros l. rewrite existsb_exists. split; intros (r & Hr & Heq); exists r;
      (split; [now apply list_elem_of_In | assumption]). }
  split; [| split; [| split; [| split; [| split; [| split]]]]].
  - now rewrite EqOneOf_silent_iff.
  - rewrite EqOneOf_unfold. now destruct (existsb _ data).
  - rewrite EqOneOf_unfold. destruct (existsb _ data); [| reflexivity].
    intros Hne. now contradiction Hne.
  - rewrite EqOneOf_silent_iff. discriminate.
  - rewrite EqOneOf_silent_iff, Eq_silent_iff. simpl. now rewrite orb_false_r.
  - rewrite !EqOneOf_silent_iff, existsb_app. apply orb_true_iff.
  - intros Hid. rewrite EqOneOf_silent_iff, Hex. split.
    + intros (r & Hr & Heq). now apply Hid in Heq as ->.
    + intros Hin. exists expected. split; [assumption | now apply Hid].
Qed.

(** [EqFunc] adds one report to those of the comparison function
    exactly when the function returns false.  It does not recover: when
    the function panics or exits the goroutine, so does [EqFunc], without
    a report of its own.  With [==] as the function it is [Eq]. *)
Theorem EqFunc_spec `{B : runtime.Build} (cs1 cs2 : list runtime.Frame)
    (T : Type) (GT : Go.GoType T) (expected got : T)
    (cmp : T -> T -> runtime.M bool) :
  (snd (cmp expected got) = runtime.Returned true ->
     smoothbraintest.EqFunc cs1 expected got cmp
     = (fst (cmp expected got), runtime.Returned tt)) /\
  (snd (cmp expected got) = runtime.Returned false ->
     exists msg, smoothbraintest.EqFunc cs1 expected got cmp
                 = (fst (cmp expected got) ++ [msg], runtime.Goexit)) /\
  (snd (cmp expected got) = runtime.Goexit ->
     smoothbraintest.EqFunc cs1 expected got cmp
     = (fst (cmp expected got), runtime.Goexit)) /\
  (forall p, snd (cmp expected got) = runtime.Panicking p ->
     smoothbraintest.EqFunc cs1 expected got cmp
     = (fst (cmp expected got), runtime.Panicking p)) /\
  (forall CT : Go.Comparable T,
     fst (smoothbraintest.EqFunc cs1 expected got
            (fun l r => runtime.ret (Go.go_eqb l r))) = [] <->
     fst (smoothbraintest.Eq cs2 expected got) = []).
Proof.
  unfold smoothbraintest.EqFunc.
  split; [| split; [| split; [| split]]].
  - destruct (cmp expected got) as [log c]. simpl. intros ->.
    unfold runtime.bind, runtime.ret. simpl. now rewrite app_nil_r.
  - destruct (cmp expected got) as [log c]. simpl. intros ->.
    unfold runtime.bind. simpl. rewrite Caller_1.
    unfold smoothbraintest.FormatError, testing.Fatal.
    destruct (runtime.Caller 0 cs1) as [f line]. simpl.
    eexists. reflexivity.
  - destruct (cmp expected got) as [log c]. simpl. now intros ->.
  - intros p. destruct (cmp expected got) as [log c]. simpl. now intros ->.
  - intros CT. rewrite bind_ret_l, Eq_silent_iff.
    destruct (Go.go_eqb expected got); simpl; go_step; [tauto |].
    split; discriminate.
Qed.

(** [True] passes exactly on [true] and [False] exactly on [false]: on
    every value one of the two reports and the other does not, and each
    is [Eq] against its constant. *)
Theorem True_False_spec `{B : runtime.Build} (cs1 cs2 : list runtime.Frame)
    (v : bool) :
  (fst (smoothbraintest.True cs1 v) = [] <-> v = true) /\
  (fst (smoothbraintest.False cs1 v) = [] <-> v = false) /\
  (fst (smoothbraintest.True cs1 v) <> [] <->
     fst (smoothbraintest.False cs2 v) = []) /\
  (fst (smoothbraintest.True cs1 v) = [] <->
     fst (smoothbraintest.False cs2 (negb v)) = []) /\
  (fst (smoothbraintest.True cs1 v) = [] <->
     fst (smoothbraintest.Eq cs2 true v) = []) /\
  (fst (smoothbraintest.False cs1 v) = [] <->
     fst (smoothbraintest.Eq cs2 false v) = []) /\
  runtime.panicked (smoothbraintest.True cs1 v) = false /\
  runtime.panicked (smoothbraintest.False cs1 v) = false.
Proof.
  rewrite !Eq_silent_iff.
  unfold smoothbraintest.True, smoothbraintest.False.
  destruct v; simpl; go_step; simpl; repeat split; intros; congruence.
Qed.

(** ** Reads within bounds *)

Lemma returns_or_halts_ret {A : Type} (a : A) :
  returns_or_halts (runtime.ret a).
Proof. left. now exists a. Qed.

Lemma returns_or_halts_FormatError `{B : runtime.Build}
    (expected got : Go.any) (base : fmt.text) (file : string) (line : Z) :
  returns_or_halts (smoothbraintest.FormatError expected got base file line).
Proof. right. eexists. reflexivity. Qed.

Lemma returns_or_halts_bind {A C : Type} (m : runtime.M A)
    (k : A -> runtime.M C) :
  returns_or_halts m -> (forall a, returns_or_halts (k a)) ->
  returns_or_halts (runtime.bind m k).
Proof.
  intros [[a ->] | [msg ->]] Hk.
  - rewrite bind_ret_l. apply Hk.
  - rewrite bind_Fatal. right. now exists msg.
Qed.

Lemma returns_or_halts_not_panicked {A : Type} (m : runtime.M A) :
  returns_or_halts m -> runtime.panicked m = false /\ (length (fst m) <= 1)%nat.
Proof. intros [[a ->] | [msg ->]]; simpl; split; (reflexivity || lia). Qed.

Section Bounds.
Context `{B : runtime.Build} {T : Type} `{CT : Go.Comparable T}.
Variables expected got : list T.
Hypothesis same_length : length expected = length got.

(** The loop of [SlicesMatch] reads both slices within their bounds. *)
Lemma SlicesMatch_loop_returns_or_halts (f : string) (line : Z) (n a : nat) :
  (a + n = length expected)%nat ->
  returns_or_halts
    (runtime.for_ (seq a n) (fun _ => true) (fun i _ =>
       runtime.bind (runtime.index expected i) (fun e =>
       runtime.bind (runtime.index got i) (fun g =>
         if negb (Go.go_eqb e g) then
           smoothbraintest.FormatError (Go.box e) (Go.box g)
             (fmt.Sprintf "Values do not match | Index: %d"
                [fmt.Val (Go.box (Z.of_nat i))])
             f line
         else runtime.ret tt))) tt).
Proof.
  revert a. induction n as [| n IH]; intros a Han; simpl.
  - apply returns_or_halts_ret.
  - destruct (lookup_lt_is_Some_2 expected a ltac:(lia)) as [e He].
    destruct (lookup_lt_is_Some_2 got a ltac:(lia)) as [g Hg].
    rewrite (index_lookup _ _ _ He), bind_ret_l,
      (index_lookup _ _ _ Hg), bind_ret_l.
    apply returns_or_halts_bind.
    + destruct (Go.go_eqb e g); simpl;
        [apply returns_or_halts_ret | apply returns_or_halts_FormatError].
    + intros []. apply IH. lia.
Qed.

(** The loop over [i] of [SlicesMatchUnordered] reads both slices within
    their bounds, whatever [==] is on the element type. *)
Lemma account_for_loop_returns_or_halts (f : string) (line : Z) (n a : nat)
    (used : gset nat) :
  (a + n = length expected)%nat ->
  returns_or_halts
    (runtime.for_ (seq a n) (fun _ => true) (fun i usedIndexes =>
       runtime.bind (smoothbraintest.find_unused expected got i usedIndexes)
         (fun s =>
       runtime.bind
         (if negb (fst s) then
            runtime.bind (runtime.index got i) (fun g =>
              smoothbraintest.FormatError (Go.box expected) (Go.box g)
                (fmt.Sprintf "Slice value was not accounted for | Index: %d"
                   [fmt.Val (Go.box (Z.of_nat i))])
                f line)
          else runtime.ret tt)
         (fun _ => runtime.ret (snd s)))) used).
Proof.
  revert a used. induction n as [| n IH]; intros a used Han; simpl.
  - apply returns_or_halts_ret.
  - destruct (lookup_lt_is_Some_2 expected a ltac:(lia)) as [e He].
    destruct (lookup_lt_is_Some_2 got a ltac:(lia)) as [g Hg].
    destruct (find_unused_spec expected got a e used He)
      as [(j & _ & _ & ->) | [_ ->]]; rewrite bind_ret_l; simpl.
    + rewrite !bind_ret_l. apply IH. lia.
    + rewrite (index_lookup _ _ _ Hg), bind_ret_l.
      unfold smoothbraintest.FormatError. rewrite !bind_Fatal.
      right. eexists. reflexivity.
Qed.

End Bounds.

(** For a strictly comparable element type, [SlicesMatch] and
    [SlicesMatchUnordered] end by returning or by exiting after one
    message: no read of [expected[i]], [got[i]] or [got[j]] in their
    loops is out of range, the loops being reached with slices of one
    length only.  The check of the lengths is what keeps the reads within
    bounds: run on a slice that is not empty against an empty one, the
    loop of [SlicesMatchUnordered] would read [got[0]] for its report and
    panic, where [SlicesMatchUnordered] halts on the lengths. *)
Theorem slice_loops_within_bounds `{B : runtime.Build}
    (callers : list runtime.Frame)
    (T : Type) (GT : Go.GoType T) (CT : Go.Comparable T)
    (expected got : list T) :
  returns_or_halts (smoothbraintest.SlicesMatch callers expected got) /\
  returns_or_halts
    (smoothbraintest.SlicesMatchUnordered callers expected got) /\
  runtime.panicked (smoothbraintest.SlicesMatch callers expected got)
  = false /\
  runtime.panicked (smoothbraintest.SlicesMatchUnordered callers expected got)
  = false /\
  (forall (f : string) (line : Z) (e : T) (rest : list T),
     smoothbraintest.account_for f line (e :: rest) []
     = runtime.panic (runtime.Error "index out of range")) /\
  (forall (e : T) (rest : list T),
     smoothbraintest.SlicesMatchUnordered callers (e :: rest) []
     = length_report callers (e :: rest) []).
Proof.
  assert (Hs : returns_or_halts
                 (smoothbraintest.SlicesMatch callers expected got)).
  { rewrite SlicesMatch_unfold.
    case_bool_decide as Hl; [| apply returns_or_halts_FormatError].
    now apply SlicesMatch_loop_returns_or_halts. }
  assert (Hu : returns_or_halts
                 (smoothbraintest.SlicesMatchUnordered callers expected got)).
  { destruct (decide (length expected = length got)) as [Hl | Hl];
      [| rewrite (SlicesMatchUnordered_lengths_differ _ _ _ Hl);
         apply returns_or_halts_FormatError].
    unfold smoothbraintest.SlicesMatchUnordered. go_step.
    rewrite len_eqb, bool_decide_eq_true_2 by assumption. simpl. go_step.
    apply returns_or_halts_bind.
    - now apply account_for_loop_returns_or_halts.
    - intros used. destruct (negb _);
        [apply returns_or_halts_FormatError | apply returns_or_halts_ret]. }
  split; [exact Hs |]. split; [exact Hu |].
  split; [apply (returns_or_halts_not_panicked _ Hs) |].
  split; [apply (returns_or_halts_not_panicked _ Hu) |].
  split.
  - intros f line e rest. unfold smoothbraintest.account_for. simpl.
    unfold smoothbraintest.find_unused. simpl. rewrite bind_ret_l. simpl.
    unfold runtime.index. simpl.
    change (runtime.try "index out of range" (@None T))
      with (@runtime.panic T (runtime.Error "index out of range")).
    now rewrite !bind_panic.
  - intros e rest. now apply SlicesMatchUnordered_lengths_differ.
Qed.

(** ** [Panics] and [NoPanic] around other calls *)

(** [NoPanic] leaves a call that does not panic as it is, and [Panics]
    turns a panicking call into a return; an exit of the goroutine under
    way goes on through both.  As neither ends panicking, [NoPanic]
    around [NoPanic] or [Panics] adds nothing, and [Panics] around either
    always adds its report and exits. *)
Theorem Panics_NoPanic_compose `{B : runtime.Build}
    (callers callers' : list runtime.Frame) (action : runtime.M unit) :
  (runtime.panicked action = false ->
     smoothbraintest.NoPanic callers action = action) /\
  (forall p, snd action = runtime.Panicking p ->
     smoothbraintest.Panics callers action
     = (fst action, runtime.Returned tt)) /\
  (snd action = runtime.Goexit ->
     snd (smoothbraintest.Panics callers action) = runtime.Goexit /\
     snd (smoothbraintest.NoPanic callers action) = runtime.Goexit) /\
  smoothbraintest.NoPanic callers (smoothbraintest.NoPanic callers' action)
  = smoothbraintest.NoPanic callers' action /\
  smoothbraintest.NoPanic callers (smoothbraintest.Panics callers' action)
  = smoothbraintest.Panics callers' action /\
  (exists msg,
     smoothbraintest.Panics callers (smoothbraintest.Panics callers' action)
     = (fst (smoothbraintest.Panics callers' action) ++ [msg],
        runtime.Goexit)) /\
  (exists msg,
     smoothbraintest.Panics callers (smoothbraintest.NoPanic callers' action)
     = (fst (smoothbraintest.NoPanic callers' action) ++ [msg],
        runtime.Goexit)).
Proof.
  destruct action as [log [[] | | p]];
    unfold smoothbraintest.Panics, smoothbraintest.NoPanic,
      runtime.defer_recover, runtime.panicked,
      smoothbraintest.FormatError, testing.Fatal, runtime.ret; simpl;
    rewrite ?app_nil_r;
    (repeat apply conj; try discriminate; try reflexivity;
     try (intros; reflexivity); try (intros ? [= <-]; reflexivity);
     try (eexists; reflexivity)).
Qed.

(** ** [ContainsError] along wrapping *)

(** The tree of an error holds the tree of each error in it. *)
Lemma tree_closed (mid err : errors.error) :
  mid ∈ tree err -> forall x, x ∈ tree mid -> x ∈ tree err.
Proof.
  induction err as [a s | a msg | a msg inner IH | a errs IH]
    using error_tree_ind; intros Hmid x Hx.
  - simpl in Hmid. apply list_elem_of_singleton in Hmid as ->. exact Hx.
  - simpl in Hmid. apply list_elem_of_singleton in Hmid as ->. exact Hx.
  - change (tree (errors.wrapError a msg (Some inner)))
      with (errors.wrapError a msg (Some inner) :: tree inner) in Hmid |- *.
    apply elem_of_cons in Hmid as [-> | Hmid]; [exact Hx |].
    apply list_elem_of_further. now apply IH.
  - change (tree (errors.joinError a errs))
      with (errors.joinError a errs :: flat_map tree errs) in Hmid |- *.
    apply elem_of_cons in Hmid as [-> | Hmid]; [exact Hx |].
    apply list_elem_of_further.
    apply list_elem_of_In, in_flat_map in Hmid as (e & He & Hmid).
    apply list_elem_of_In, in_flat_map. exists e. split; [exact He |].
    apply list_elem_of_In. rewrite Forall_forall in IH.
    apply (IH e); [now apply list_elem_of_In | now apply list_elem_of_In | exact Hx].
Qed.

Lemma ContainsError_silent_iff `{B : runtime.Build}
    (callers : list runtime.Frame) (expected got : option errors.error) :
  fst (smoothbraintest.ContainsError callers expected got) = [] <->
  errors.Is got expected = true.
Proof.
  unfold smoothbraintest.ContainsError.
  destruct (errors.Is got expected); simpl; go_step; [tauto |].
  split; discriminate.
Qed.

(** [ContainsError] passes on an error and itself, and goes on passing
    when the error is wrapped further: an error that passes anywhere in
    the tree of [got] makes [got] pass.  A nil error passes against nil
    only.  An error made by [errors.New] passes against the errors of its
    own address only; a joined error passes when it is the expected error
    or one of its parts passes.  The relation is not symmetric. *)
Theorem ContainsError_monotone `{B : runtime.Build}
    (callers : list runtime.Frame) :
  (forall (expected : option errors.error) (mid got : errors.error),
     mid ∈ tree got ->
     fst (smoothbraintest.ContainsError callers expected (Some mid)) = [] ->
     fst (smoothbraintest.ContainsError callers expected (Some got)) = []) /\
  (forall err : option errors.error,
     smoothbraintest.ContainsError callers err err = runtime.ret tt) /\
  (forall err : errors.error,
     fst (smoothbraintest.ContainsError callers None (Some err)) <> [] /\
     fst (smoothbraintest.ContainsError callers (Some err) None) <> []) /\
  (forall (a : N) (s : string) (expected : errors.error),
     fst (smoothbraintest.ContainsError callers (Some expected)
            (Some (errors.errorString a s))) = [] <->
     errors.addr expected = a) /\
  (forall (a : N) (errs : list errors.error) (expected : errors.error),
     fst (smoothbraintest.ContainsError callers (Some expected)
            (Some (errors.joinError a errs))) = [] <->
     errors.addr expected = a \/
     exists e, e ∈ errs /\
       fst (smoothbraintest.ContainsError callers (Some expected) (Some e))
       = []) /\
  (forall (a b : N) (s msg : string), a <> b ->
     smoothbraintest.ContainsError callers (Some (errors.errorString a s))
       (Some (errors.wrapError b msg (Some (errors.errorString a s))))
     = runtime.ret tt /\
     fst (smoothbraintest.ContainsError callers
            (Some (errors.wrapError b msg (Some (errors.errorString a s))))
            (Some (errors.errorString a s))) <> []).
Proof.
  repeat apply conj.
  - intros expected mid got Hmid. rewrite !ContainsError_silent_iff.
    destruct expected as [t |]; simpl; [| discriminate].
    rewrite !is_tree. intros (x & Hx & Ha). exists x.
    split; [now apply (tree_closed mid) | exact Ha].
  - intros [err |]; [| reflexivity].
    unfold smoothbraintest.ContainsError.
    assert (errors.Is (Some err) (Some err) = true) as ->; [| reflexivity].
    apply is_tree. exists err. split; [| reflexivity].
    destruct err as [? ? | ? ? [?|] | ? ?]; apply list_elem_of_here.
  - intros err. split; rewrite ContainsError_silent_iff; discriminate.
  - intros a s expected. rewrite ContainsError_silent_iff. simpl.
    rewrite orb_false_r, same_addr. simpl. split; congruence.
  - intros a errs expected. rewrite ContainsError_silent_iff. simpl.
    rewrite orb_true_iff, same_addr, existsb_exists. simpl.
    split.
    + intros [Ha | (e & He & His)]; [left; congruence | right].
      exists e. split; [now apply list_elem_of_In |].
      now apply ContainsError_silent_iff.
    + intros [Ha | (e & He & His)]; [left; congruence | right].
      exists e. split; [now apply list_elem_of_In |].
      now apply ContainsError_silent_iff in His.
  - intros a b s msg Hab. split.
    + unfold smoothbraintest.ContainsError. simpl.
      unfold errors.same. simpl. rewrite N.eqb_refl, orb_true_r. reflexivity.
    + rewrite ContainsError_silent_iff. simpl. unfold errors.same. simpl.
      rewrite orb_false_r. intros Heq. apply N.eqb_eq in Heq. congruence.
Qed.

(** ** [MapsMatch] on maps of basic values *)

Lemma returns_or_halts_range {A : Type} (xs : list A)
    (body : A -> runtime.M unit) :
  (forall x, returns_or_halts (body x)) ->
  returns_or_halts (runtime.range xs body).
Proof.
  intros Hbody. induction xs as [| x xs IH]; simpl.
  - apply returns_or_halts_ret.
  - apply returns_or_halts_bind; [apply Hbody | intros _; exact IH].
Qed.

Section MapsOfBasicValues.
Context {K V : Type} `{Countable K} `{CV : Go.Comparable V} `{!BoxedEq V}.

Lemma included_boxed (expected got : gmap K V) :
  included expected got <->
  forall k v, expected !! k = Some v ->
    exists gotV, got !! k = Some gotV /\ Go.go_eqb gotV v = true.
Proof.
  unfold included. split; intros Hinc k v Hkv;
    destruct (Hinc k v Hkv) as (g & Hg & Heq); exists g;
    (split; [exact Hg |]); rewrite iface_eq_box in *; congruence.
Qed.

(** With as many keys on each side, inclusion leaves no key of [got]
    out. *)
Lemma included_dom (expected got : gmap K V) :
  size expected = size got -> included expected got ->
  dom expected = dom got.
Proof.
  intros Hs Hinc. apply set_subseteq_size_eq.
  - intros k Hk. apply elem_of_dom in Hk as [v Hv].
    destruct (Hinc k v Hv) as (g & Hg & _). apply elem_of_dom. now exists g.
  - rewrite !size_dom. lia.
Qed.

Lemma included_sym `{!Go.ComparableLaws V} (expected got : gmap K V) :
  size expected = size got -> included expected got -> included got expected.
Proof.
  intros Hs Hinc. pose proof (included_dom expected got Hs Hinc) as Hdom.
  rewrite included_boxed in Hinc |- *. intros k g Hg.
  assert (Hk : k ∈ dom expected) by (rewrite Hdom; apply elem_of_dom; now exists g).
  apply elem_of_dom in Hk as [v Hv]. exists v. split; [exact Hv |].
  destruct (Hinc k v Hv) as (g' & Hg' & Heq).
  assert (g' = g) as -> by congruence. now apply Go.go_eqb_sym.
Qed.

Lemma included_identity (expected got : gmap K V) :
  (forall x y : V, Go.go_eqb x y = true <-> x = y) ->
  size expected = size got /\ included expected got <-> expected = got.
Proof.
  intros Hid. split.
  - intros [Hs Hinc]. apply map_subseteq_size_eq; [| lia].
    apply map_subseteq_spec. intros k v Hv.
    destruct (proj1 (included_boxed expected got) Hinc k v Hv)
      as (g & Hg & Heq).
    apply Hid in Heq. congruence.
  - intros <-. split; [reflexivity |]. apply included_boxed.
    intros k v Hv. exists v. split; [exact Hv | now apply Hid].
Qed.

End MapsOfBasicValues.

(** On maps whose keys are of a type on which [==] is identity and
    whose values are of a basic type, [MapsMatch] cannot panic, and the
    order of its two maps does not matter to the verdict.  A map
    passes against itself exactly when each of its values is equal to
    itself, which a NaN is not; where [==] is identity [MapsMatch] passes
    exactly on equal maps. *)
Theorem MapsMatch_basic_values `{B : runtime.Build}
    (cs1 cs2 : list runtime.Frame)
    (K : Type) (EK : EqDecision K) (CK : Countable K) (GK : Go.GoType K)
    (CoK : Go.Comparable K) (IK : KeyIdentity K)
    (V : Type) (GV : Go.GoType V) (CV : Go.Comparable V)
    (BE : BoxedEq V) (Laws : Go.ComparableLaws V)
    (expected got : gmap K V) (order order' : list (K * V))
    (Horder : order ≡ₚ map_to_list expected)
    (Horder' : order' ≡ₚ map_to_list got) :
  returns_or_halts (smoothbraintest.MapsMatch cs1 order expected got) /\
  (smoothbraintest.MapsMatch cs1 order expected got = runtime.ret tt <->
     smoothbraintest.MapsMatch cs2 order' got expected = runtime.ret tt) /\
  (smoothbraintest.MapsMatch cs1 order expected expected = runtime.ret tt <->
     forall k v, expected !! k = Some v -> Go.go_eqb v v = true) /\
  ((forall x y : V, Go.go_eqb x y = true <-> x = y) ->
     (smoothbraintest.MapsMatch cs1 order expected got = runtime.ret tt <->
        expected = got)).
Proof.
  split; [| split; [| split]].
  - rewrite MapsMatch_unfold.
    case_bool_decide; [| apply returns_or_halts_FormatError].
    apply returns_or_halts_range. intros [k v]. simpl.
    apply returns_or_halts_bind.
    + destruct (negb _);
        [apply returns_or_halts_FormatError | apply returns_or_halts_ret].
    + intros _. rewrite iface_eq_box, try_Some, bind_ret_l.
      destruct (negb _);
        [apply returns_or_halts_FormatError | apply returns_or_halts_ret].
  - rewrite (MapsMatch_passes cs1 expected got order Horder),
      (MapsMatch_passes cs2 got expected order' Horder').
    split; intros [Hs Hinc]; (split; [now symmetry |]);
      now apply included_sym.
  - rewrite (MapsMatch_passes cs1 expected expected order Horder),
      included_boxed. split.
    + intros [_ Hinc] k v Hv. destruct (Hinc k v Hv) as (g & Hg & Heq).
      congruence.
    + intros Hself. split; [reflexivity |]. intros k v Hv.
      exists v. split; [exact Hv | now apply (Hself k)].
  - intros Hid.
    rewrite (MapsMatch_passes cs1 expected got order Horder).
    now apply included_identity.
Qed.

Lemma MapsMatch_basic_values_witness :
  [("b", 2); ("a", 1)]
    ≡ₚ map_to_list (<["a" := 1]> (<["b" := 2]> ∅) : gmap string Z) /\
  (smoothbraintest.MapsMatch (B := example_build) example_callers
     [("b", 2); ("a", 1)]
     (<["a" := 1]> (<["b" := 2]> ∅) : gmap string Z)
     (<["b" := 2]> (<["a" := 1]> ∅)) = runtime.ret tt <->
   smoothbraintest.MapsMatch (B := example_build) example_callers
     [("b", 2); ("a", 1)]
     (<["b" := 2]> (<["a" := 1]> ∅) : gmap string Z)
     (<["a" := 1]> (<["b" := 2]> ∅)) = runtime.ret tt).
Proof.
  assert (Hperm : [("b", 2); ("a", 1)]
            ≡ₚ map_to_list (<["a" := 1]> (<["b" := 2]> ∅) : gmap string Z)).
  { rewrite map_to_list_insert by reflexivity.
    rewrite map_to_list_insert by reflexivity.
    rewrite map_to_list_empty. apply Permutation_swap. }
  assert (Hperm' : [("b", 2); ("a", 1)]
            ≡ₚ map_to_list (<["b" := 2]> (<["a" := 1]> ∅) : gmap string Z)).
  { rewrite map_to_list_insert by reflexivity.
    rewrite map_to_list_insert by reflexivity.
    now rewrite map_to_list_empty. }
  split; [exact Hperm |].
  exact (proj1 (proj2 (MapsMatch_basic_values (B := example_build)
                         example_callers example_callers
                         string _ _ _ _ _ Z _ _ _ _ _ _ _ _ Hperm Hperm'))).
Defined.

(** ** The report of [MapsMatch] *)

Lemma range_app {A : Type} (xs ys : list A) (body : A -> runtime.M unit) :
  Forall (fun x => body x = runtime.ret tt) xs ->
  runtime.range (xs ++ ys) body = runtime.range ys body.
Proof.
  induction 1 as [| x xs Hx _ IH]; simpl; [reflexivity |].
  now rewrite Hx, bind_ret_l.
Qed.

(** On maps whose keys are of a type on which [==] is identity,
    [MapsMatch] stops at the first entry of the visit that is not in
    [got] with an equal value, so which entry it reports depends on the
    order of the visit.  For a key that [got] lacks the report carries
    [true] and [false]; for a value that differs it carries the value of
    [got] as the expected one and the value of [expected] as the one
    got; when the two values cannot be compared the call panics. *)
Theorem MapsMatch_first_failure `{B : runtime.Build}
    (callers : list runtime.Frame)
    (K : Type) (EK : EqDecision K) (CK : Countable K) (GK : Go.GoType K)
    (CoK : Go.Comparable K) (IK : KeyIdentity K)
    (V : Type) (GV : Go.GoType V)
    (expected got : gmap K V) (before after : list (K * V)) (k : K) (v : V)
    (Hsize : size expected = size got)
    (Hbefore : forall k' v', (k', v') ∈ before ->
       exists gotV, got !! k' = Some gotV /\
         Go.iface_eq (Go.box gotV) (Go.box v') = Some true) :
  (got !! k = None ->
     smoothbraintest.MapsMatch callers (before ++ (k, v) :: after) expected got
     = smoothbraintest.FormatError (Go.box true) (Go.box false)
         (fmt.Sprintf "A key was not found | Key: %v" [fmt.Val (Go.box k)])
         (fst (runtime.Caller 0 callers)) (snd (runtime.Caller 0 callers))) /\
  (forall gotV, got !! k = Some gotV ->
     Go.iface_eq (Go.box gotV) (Go.box v) = Some false ->
     smoothbraintest.MapsMatch callers (before ++ (k, v) :: after) expected got
     = smoothbraintest.FormatError (Go.box gotV) (Go.box v)
         (fmt.Lit "The values stored in the map did not match.")
         (fst (runtime.Caller 0 callers)) (snd (runtime.Caller 0 callers))) /\
  (forall gotV, got !! k = Some gotV ->
     Go.iface_eq (Go.box gotV) (Go.box v) = None ->
     smoothbraintest.MapsMatch callers (before ++ (k, v) :: after) expected got
     = runtime.panic
         (runtime.Error "runtime error: comparing uncomparable type")).
Proof.
  rewrite MapsMatch_unfold, bool_decide_eq_true_2 by assumption.
  rewrite range_app.
  2: { apply Forall_forall. intros [k' v'] Hin.
       apply (body_ret callers got). now apply Hbefore. }
  split; [| split].
  - intros Hk. simpl. rewrite Hk. simpl.
    unfold smoothbraintest.FormatError. now rewrite !bind_Fatal.
  - intros gotV Hk Heq. simpl.
    rewrite (body_present callers got k v gotV Hk), Heq.
    unfold smoothbraintest.FormatError. now rewrite !bind_Fatal.
  - intros gotV Hk Heq. simpl.
    rewrite (body_present callers got k v gotV Hk), Heq.
    apply bind_panic.
Qed.

Lemma MapsMatch_first_failure_witness :
  size ({["a" := 1; "b" := 2; "c" := 3]} : gmap string Z)
  = size ({["a" := 9; "b" := 8; "c" := 3]} : gmap string Z) /\
  ({["a" := 9; "b" := 8; "c" := 3]} : gmap string Z) !! "c" = Some 3 /\
  smoothbraintest.MapsMatch (B := example_build) example_callers
    ([("c", 3)] ++ [("a", 1); ("b", 2)])
    ({["a" := 1; "b" := 2; "c" := 3]} : gmap string Z)
    {["a" := 9; "b" := 8; "c" := 3]}
  = smoothbraintest.FormatError (Go.box 9) (Go.box 1)
      (fmt.Lit "The values stored in the map did not match.")
      "/work/sample_test.go" 10 /\
  smoothbraintest.MapsMatch (B := example_build) example_callers
    ([("c", 3)] ++ [("b", 2); ("a", 1)])
    ({["a" := 1; "b" := 2; "c" := 3]} : gmap string Z)
    {["a" := 9; "b" := 8; "c" := 3]}
  = smoothbraintest.FormatError (Go.box 8) (Go.box 2)
      (fmt.Lit "The values stored in the map did not match.")
      "/work/sample_test.go" 10.
Proof.
  assert (Hs : size ({["a" := 1; "b" := 2; "c" := 3]} : gmap string Z)
               = size ({["a" := 9; "b" := 8; "c" := 3]} : gmap string Z))
    by (vm_compute; reflexivity).
  assert (Hc : ({["a" := 9; "b" := 8; "c" := 3]} : gmap string Z) !! "c"
               = Some 3) by reflexivity.
  assert (Hbefore : forall (k' : string) (v' : Z),
            (k', v') ∈ [("c", 3)] ->
            exists gotV,
              ({["a" := 9; "b" := 8; "c" := 3]} : gmap string Z) !! k'
              = Some gotV /\
              Go.iface_eq (Go.box gotV) (Go.box v') = Some true).
  { intros k' v' Hin. apply list_elem_of_singleton in Hin.
    injection Hin as -> ->. exists 3. split; [exact Hc | reflexivity]. }
  split; [exact Hs |]. split; [exact Hc |]. split.
  - exact (proj1 (proj2 (MapsMatch_first_failure (B := example_build)
             example_callers string _ _ _ _ _ Z _
             {["a" := 1; "b" := 2; "c" := 3]} {["a" := 9; "b" := 8; "c" := 3]}
             [("c", 3)] [("b", 2)] "a" 1 Hs Hbefore)) 9 eq_refl eq_refl).
  - exact (proj1 (proj2 (MapsMatch_first_failure (B := example_build)
             example_callers string _ _ _ _ _ Z _
             {["a" := 1; "b" := 2; "c" := 3]} {["a" := 9; "b" := 8; "c" := 3]}
             [("c", 3)] [("a", 1)] "b" 2 Hs Hbefore)) 8 eq_refl eq_refl).
Defined.
